(** * Link-order resolution and artifact location of [bin/ice/library.py]

    A shallow embedding of the library registry ([Library], [defineLibrary]),
    of the rank table and the comparator used to order libraries for the
    linker ([_makeLibOrder], [_libSorter], [cmp2key], [sortLibraries]) and of
    the artifact locator ([findLibrary]), followed by the properties that the
    design document states about them.

    Conventions.
    - A Python [str] is a [string]; a character is its code point (below 256).
    - A Python [int] is a [Z]; [None] or a value is an [option].
    - A Python [dict] is an insertion-ordered association list ([PyDict]).
    - An exception that the code lets escape is [None] (or [SysExit]).
    - The float that [float(version)] yields is a binary64 value: the decimal
      literal is rounded to nearest, ties to even ([pyfloat]). *)

From Stdlib Require Import ZArith List String Ascii Bool Lia Permutation Sorted.
Import ListNotations.
Local Open Scope string_scope.
Local Open Scope Z_scope.

(** ** Python strings: slices and [rfind] *)

Module PyStr.

Definition len (s : string) : Z := Z.of_nat (String.length s).

(** The bound of a slice, as [PySlice_AdjustIndices] clamps it. *)
Definition clamp (n i : Z) : Z :=
  if i <? 0 then Z.max 0 (n + i) else Z.min i n.

(** [s[start:stop]] *)
Definition slice (s : string) (start stop : Z) : string :=
  let a := clamp (len s) start in
  let b := clamp (len s) stop in
  substring (Z.to_nat a) (Z.to_nat (b - a)) s.

(** The highest index in [lo, hi) that holds [c], or [acc]. *)
Fixpoint rfind_scan (s : string) (c : ascii) (i lo hi acc : Z) : Z :=
  match s with
  | EmptyString => acc
  | String h t =>
      rfind_scan t c (i + 1) lo hi
        (if (lo <=? i) && (i <? hi) && Ascii.eqb h c then i else acc)
  end.

(** [s.rfind(c, start, stop)] for a one-character [c]. *)
Definition rfind (s : string) (c : ascii) (start stop : Z) : Z :=
  rfind_scan s c 0 (clamp (len s) start) (clamp (len s) stop) (-1).

(** [x < y] on [str]: lexicographic on code points. *)
Definition lt (x y : string) : bool :=
  match String.compare x y with Lt => true | _ => false end.

Definition gt (x y : string) : bool := lt y x.

End PyStr.

(** ** Python floats, as far as [float(str)] and [>] go *)

Module PyFloat.

(** A binary64 value: not-a-number, an infinity, or [m * 2^e]. *)
Inductive pyfloat : Type :=
| NaN
| Inf (negative : bool)
| Fin (m e : Z).

Definition zero : pyfloat := Fin 0 0.

(** [a < b] on finite values [m1 * 2^e1] and [m2 * 2^e2]. *)
Definition fin_ltb (m1 e1 m2 e2 : Z) : bool :=
  let k := Z.min e1 e2 in
  m1 * 2 ^ (e1 - k) <? m2 * 2 ^ (e2 - k).

(** [a > b]; every comparison with a NaN is false. *)
Definition gtb (a b : pyfloat) : bool :=
  match a, b with
  | NaN, _ | _, NaN => false
  | Inf na, Inf nb => negb na && nb
  | Inf na, Fin _ _ => negb na
  | Fin _ _, Inf nb => nb
  | Fin m1 e1, Fin m2 e2 => fin_ltb m2 e2 m1 e1
  end.

(** The binary64 value nearest to [n / d] ([0 < n], [0 < d]), ties to
    even; an infinity from [2^1024 - 2^970] on. *)
Definition of_ratio (n d : Z) : pyfloat :=
  let l := Z.log2 n - Z.log2 d in
  let above := if 0 <=? l then d * 2 ^ l <=? n else d <=? n * 2 ^ (- l) in
  let fl := if above then l else l - 1 in
  let e := Z.max (-1074) (fl - 52) in
  let num := if e <? 0 then n * 2 ^ (- e) else n in
  let den := if e <? 0 then d else d * 2 ^ e in
  let q := num / den in
  let r := num mod den in
  let m := if 2 * r <? den then q
           else if den <? 2 * r then q + 1
           else if Z.even q then q else q + 1 in
  if (971 <? e) || ((e =? 971) && (m =? 2 ^ 53)) then Inf false
  else Fin m e.

(** The binary64 value nearest to [m * 10^e10] ([0 <= m]). *)
Definition of_decimal (m e10 : Z) : pyfloat :=
  if m =? 0 then zero
  else if 0 <=? e10 then of_ratio (m * 10 ^ e10) 1
  else of_ratio m (10 ^ (- e10)).

Definition neg (x : pyfloat) : pyfloat :=
  match x with
  | NaN => NaN
  | Inf b => Inf (negb b)
  | Fin m e => Fin (- m) e
  end.

Definition code (c : ascii) : Z := Z.of_N (N_of_ascii c).

Definition is_digit (c : ascii) : bool := (48 <=? code c) && (code c <=? 57).

(** The whitespace that [float] strips, among the code points below 256:
    tab to carriage return and the space, and the two spaces above 127
    (next line, no-break space), which [float] turns into a space first.
    The separators 28 to 31 are not stripped. *)
Definition is_space (c : ascii) : bool :=
  let n := code c in
  ((9 <=? n) && (n <=? 13)) || (n =? 32) || (n =? 133) || (n =? 160).

Definition lower (c : ascii) : ascii :=
  let n := code c in
  if (65 <=? n) && (n <=? 90) then ascii_of_N (Z.to_N (n + 32)) else c.

Fixpoint lstrip (l : list ascii) : list ascii :=
  match l with
  | c :: l' => if is_space c then lstrip l' else l
  | [] => []
  end.

Definition strip (l : list ascii) : list ascii :=
  rev (lstrip (rev (lstrip l))).

(** Underscores may only stand between two digits; they are dropped.
    [prev] is the character before, [None] at the start. *)
Fixpoint drop_underscores (prev : option ascii) (l : list ascii)
  : option (list ascii) :=
  match l with
  | [] =>
      match prev with
      | Some "_"%char => None
      | _ => Some []
      end
  | c :: l' =>
      if Ascii.eqb c "_" then
        match prev with
        | Some p => if is_digit p then drop_underscores (Some c) l' else None
        | None => None
        end
      else
        match prev with
        | Some "_"%char =>
            if is_digit c
            then option_map (cons c) (drop_underscores (Some c) l')
            else None
        | _ => option_map (cons c) (drop_underscores (Some c) l')
        end
  end.

(** The leading digits of [l]: their value on top of [acc], how many
    they are, and what follows them. *)
Fixpoint digits (l : list ascii) (acc : Z) (cnt : Z)
  : Z * Z * list ascii :=
  match l with
  | c :: l' =>
      if is_digit c then digits l' (10 * acc + (code c - 48)) (cnt + 1)
      else (acc, cnt, l)
  | [] => (acc, cnt, [])
  end.

Definition sign (l : list ascii) : bool * list ascii :=
  match l with
  | "-"%char :: l' => (true, l')
  | "+"%char :: l' => (false, l')
  | _ => (false, l)
  end.

(** The exponent part, which must reach the end of the literal. *)
Definition exponent (l : list ascii) : option Z :=
  match l with
  | [] => Some 0
  | c :: l' =>
      if Ascii.eqb (lower c) "e" then
        let '(negative, l'') := sign l' in
        let '(v, cnt, rest) := digits l'' 0 0 in
        match rest with
        | [] => if cnt =? 0 then None
                else Some (if negative then - v else v)
        | _ => None
        end
      else None
  end.

(** An unsigned decimal literal: digits, an optional point and digits
    (one digit at least), an optional exponent. *)
Definition decimal (l : list ascii) : option pyfloat :=
  let '(ip, n1, r1) := digits l 0 0 in
  let '(m, n2, r2) :=
    match r1 with
    | "."%char :: r => digits r ip 0
    | _ => (ip, 0, r1)
    end in
  if n1 + n2 =? 0 then None
  else
    match exponent r2 with
    | Some ex => Some (of_decimal m (ex - n2))
    | None => None
    end.

Definition inf_or_nan (l : list ascii) : option pyfloat :=
  let w := string_of_list_ascii (map lower l) in
  if (String.eqb w "inf" || String.eqb w "infinity")%bool then Some (Inf false)
  else if String.eqb w "nan" then Some NaN
  else None.

(** [float(s)]; [None] is the [ValueError]. *)
Definition float (s : string) : option pyfloat :=
  let l := strip (list_ascii_of_string s) in
  let '(negative, body) := sign l in
  let r :=
    match inf_or_nan body with
    | Some v => Some v
    | None =>
        match drop_underscores None l with
        | Some l' => decimal (snd (sign l'))
        | None => None
        end
    end in
  option_map (fun v => if negative then neg v else v) r.

End PyFloat.

(** ** Python dictionaries *)

Module PyDict.

Section Dict.
Context {V : Type}.

(** Keys in insertion order, each once. *)
Definition t : Type := list (string * V).

Definition empty : t := [].

(** [d.get(k)] *)
Fixpoint get (d : t) (k : string) : option V :=
  match d with
  | [] => None
  | (k', v) :: d' => if String.eqb k' k then Some v else get d' k
  end.

(** [k in d] *)
Definition contains (d : t) (k : string) : bool :=
  match get d k with Some _ => true | None => false end.

(** [d[k] = v]: a present key keeps its place, a new one goes last. *)
Fixpoint set (d : t) (k : string) (v : V) : t :=
  match d with
  | [] => [(k, v)]
  | (k', v') :: d' =>
      if String.eqb k' k then (k', v) :: d' else (k', v') :: set d' k v
  end.

(** The keys, as [for k in d] visits them. *)
Definition keys (d : t) : list string := map fst d.

End Dict.

Arguments t : clear implicits.

End PyDict.

(** ** The library records *)

Definition STATIC : Z := 1.
Definition DYNAMIC : Z := 2.
Definition FRAMEWORK : Z := 3.

Record Library : Type := mkLibrary {
  name : string;
  type : Z;
  releaseLib : option string;
  debugLib : option string;
  releaseFramework : option string;
  debugFramework : option string;
  headerList : list string;
  symbolList : list string;
  dependsOnList : list string;
  deploy : bool
}.

(** [Library.__init__]; [deploy] is [None] where the call leaves the
    argument to its default, [True]. *)
Definition Library_init (name : string) (type : Z)
    (releaseLib debugLib releaseFramework debugFramework : option string)
    (headerList symbolList dependsOnList : list string)
    (deploy : option bool) : Library :=
  let deploy := match deploy with Some b => b | None => true end in
  let deploy := if type =? STATIC then false else deploy in
  mkLibrary name type releaseLib debugLib releaseFramework debugFramework
    headerList symbolList dependsOnList deploy.

(** [Library.__str__] *)
Definition Library_str (lib : Library) : string := "$" ++ name lib ++ "$".

(** ** The registry *)

(** The three module-level tables. *)
Record Registry : Type := mkRegistry {
  libraryTable : PyDict.t Library;
  headerToLibraryTable : PyDict.t (list string);
  symbolToLibraryTable : PyDict.t (list string)
}.

Definition Registry_empty : Registry :=
  mkRegistry PyDict.empty PyDict.empty PyDict.empty.

(** What a call leaves behind: it returns, or [sys.exit(code)] ends the
    process. *)
Inductive outcome : Type :=
| Returned
| SysExit (code : Z).

(** What the process wrote, oldest first. *)
Inductive event : Type :=
| Print (text : string)
| ColorPrint (text : string).

Record World : Type := mkWorld {
  registry : Registry;
  stdout : list event
}.

(** [table[key] += [libname]] where the key is present, else
    [table[key] = [libname]]. *)
Definition trigger_append (table : PyDict.t (list string))
    (key libname : string) : PyDict.t (list string) :=
  match PyDict.get table key with
  | Some libs => PyDict.set table key (libs ++ [libname])%list
  | None => PyDict.set table key [libname]
  end.

(** The list that a trigger table holds under a key; empty where the key
    is absent. *)
Definition entries (table : PyDict.t (list string)) (key : string)
  : list string :=
  match PyDict.get table key with
  | Some libs => libs
  | None => []
  end.

Section DefineLibrary.
(** [verbosity] and [TRACE] come from [variables.py]. *)
Variables (verbosity TRACE : Z).

Definition defineLibrary (lib : Library) (w : World) : World * outcome :=
  let out :=
    if TRACE <=? verbosity
    then (stdout w ++
          [Print ("defineLibrary() adding " ++ Library_str lib
                  ++ " to libraryTable.")])%list
    else stdout w in
  let r := registry w in
  if PyDict.contains (libraryTable r) (name lib) then
    (mkWorld r (out ++ [ColorPrint ("ERROR: Library '" ++ name lib
                                    ++ "' defined twice.")])%list,
     SysExit (-1))
  else
    let libraryTable := PyDict.set (libraryTable r) (name lib) lib in
    let headerToLibraryTable :=
      fold_left (fun table header => trigger_append table header (name lib))
        (headerList lib) (headerToLibraryTable r) in
    let symbolToLibraryTable :=
      fold_left (fun table symbol => trigger_append table symbol (name lib))
        (symbolList lib) (symbolToLibraryTable r) in
    (mkWorld (mkRegistry libraryTable headerToLibraryTable
                symbolToLibraryTable) out,
     Returned).

(** [for lib in libs: defineLibrary(lib)]: the loop ends with the
    process at the first [sys.exit]. *)
Fixpoint defineLibraries (libs : list Library) (w : World)
  : World * outcome :=
  match libs with
  | [] => (w, Returned)
  | lib :: libs' =>
      match defineLibrary lib w with
      | (w', Returned) => defineLibraries libs' w'
      | (w', SysExit code) => (w', SysExit code)
      end
  end.

End DefineLibrary.

(** ** The catalogue that the module registers when it is loaded *)

Section Catalogue.
(** The platform facts: [sys.platform] starts with [darwin]; [machine()]
    is [aarch64] or starts with [arm]. *)
Variables (isOSX isARM : bool).

Definition maybeG3DX11 : list string :=
  if negb isOSX then ["X11"] else [].
Definition maybeGLFWX11 : list string :=
  if negb isOSX
  then ["X11"; "Xrandr"; "Xi"; "Xxf86vm"; "Xcursor"; "Xinerama"; "dl"]
  else [].
Definition maybeGLFWOSX : list string :=
  if negb isOSX then [] else ["IOKit"; "CoreVideo"; "Cocoa"; "AppleGL"].
Definition maybeAppleGL : list string :=
  if negb isOSX then [] else ["AppleGL"].
Definition maybeFwk : Z :=
  if negb isOSX then DYNAMIC else FRAMEWORK.
Definition maybeFFMPEG : list string :=
  if negb isOSX
  then ["FFMPEG-util"; "FFMPEG-codec"; "FFMPEG-format"; "FFMPEG-swscale";
        "FFMPEG-filter"]
  else ["FFMPEG-util"; "FFMPEG-codec"; "FFMPEG-format"; "FFMPEG-swscale";
        "FFMPEG-filter"].
Definition maybeFMOD : list string :=
  if negb isOSX then [] else ["FMOD"].
Definition maybeEmbree : list string :=
  if negb isARM then ["embree"] else [].
Definition maybePython : list string :=
  if negb isARM then ["python"] else [].

Definition G3DAppDepend : list string :=
  (["G3D-base"; "G3D-gfx"; "OpenGL"; "GLU"; "glfw"; "assimp"; "glew"; "nfd"]
   ++ maybePython ++ maybeFFMPEG ++ maybeAppleGL ++ maybeG3DX11
   ++ maybeFMOD ++ maybeEmbree)%list.
Definition glfwDepend : list string :=
  (maybeGLFWX11 ++ maybeGLFWOSX ++ ["pthread"])%list.

Definition catalogue : list Library :=
  [
    Library_init "python" DYNAMIC (Some "python36") (Some "python36") None
      None ["Python.h"] [] [] None;
    Library_init "SDL" maybeFwk (Some "SDL") (Some "SDL") (Some "SDL")
      (Some "SDL") ["SDL.h"] ["SDL_GetMouseState"]
      ["OpenGL"; "Cocoa"; "pthread"] (Some true);
    Library_init "curses" DYNAMIC (Some "curses") (Some "curses") None None
      ["curses.h"] [] [] (Some false);
    Library_init "zlib" DYNAMIC (Some "z") (Some "z") None None ["zlib.h"]
      ["compress2"] [] (Some false);
    Library_init "zip" STATIC (Some "zip") (Some "zip") None None ["zip.h"]
      ["zip_close"] ["zlib"] (Some false);
    Library_init "glut" maybeFwk (Some "glut") (Some "glut") (Some "GLUT")
      (Some "GLUT") ["glut.h"] [] [] (Some false);
    Library_init "OpenGL" maybeFwk (Some "GL") (Some "GL") (Some "OpenGL")
      (Some "OpenGL") ["gl.h"] ["glBegin"; "glVertex3"] [] (Some false);
    Library_init "assimp" STATIC (Some "assimp") (Some "assimpd") None None
      ["assimp/Importer.hpp"] [] [] (Some false);
    Library_init "glfw" STATIC (Some "glfw") (Some "glfwd") None None
      ["glfw3.h"] ["glfwCreateWindow"; "_glfwCreateWindow"] glfwDepend None;
    Library_init "glew" STATIC (Some "glew") (Some "glewd") None None
      ["glew.h"] ["_glewGetExtension"; "glewGetExtension"] [] None;
    Library_init "nfd" STATIC (Some "nfd") (Some "nfdd") None None ["nfd.h"]
      ["_NFD_OpenDialog"] [] None;
    Library_init "enet" STATIC (Some "enet") (Some "enetd") None None
      ["enet.h"] ["enet_host_create"] [] None;
    Library_init "sqlite3" STATIC (Some "sqlite3") (Some "sqlite3d") None
      None ["sqlite3.h"] [] [] None;
    Library_init "freeimage" STATIC (Some "freeimage") (Some "freeimaged")
      None None ["FreeImagePlus.h"; "FreeImage.h"] [] [] None;
    Library_init "GLU" maybeFwk (Some "GLU") (Some "GLU") None None
      ["glu.h"] ["gluBuild2DMipmaps"] ["OpenGL"] (Some false);
    Library_init "Webkit" FRAMEWORK None None (Some "Webkit")
      (Some "Webkit") ["Webkit.h"] ["WKWebView"; "_OBJC_CLASS_$_WKWebView"]
      [] (Some false);
    Library_init "Cocoa" FRAMEWORK None None (Some "Cocoa") (Some "Cocoa")
      ["Cocoa.h"] ["DebugStr"] [] (Some false);
    Library_init "Carbon" FRAMEWORK None None (Some "Carbon")
      (Some "Carbon") ["Carbon.h"] ["ShowWindow"] [] (Some false);
    Library_init "AppleGL" FRAMEWORK None None (Some "AGL") (Some "AGL")
      ["agl.h"] ["_aglChoosePixelFormat"] [] (Some false);
    Library_init "G3D-base" STATIC (Some "G3D-base") (Some "G3D-based") None
      None ["G3D-base.h"; "TextInput.h"] []
      (["zlib"; "freeimage"; "zip"; "Cocoa"; "pthread"; "enet"; "tbb";
        "civetweb"] ++ maybeG3DX11)%list
      None;
    Library_init "G3D-gfx" STATIC (Some "G3D-gfx") (Some "G3D-gfxd") None
      None ["G3D-gfx.h"; "RenderDevice.h"] [] G3DAppDepend None;
    Library_init "G3D-app" STATIC (Some "G3D-app") (Some "G3D-appd") None
      None ["G3D-app.h"; "G3D.h"; "RenderDevice.h"] [] G3DAppDepend None;
    Library_init "pthread" DYNAMIC (Some "pthread") (Some "pthread") None
      None ["pthread.h"] [] [] (Some false);
    Library_init "math" DYNAMIC (Some "m") (Some "m") None None [] [] []
      (Some false);
    Library_init "QT" DYNAMIC (Some "qt-mt") (Some "qt-mt") None None
      ["qobject.h"] [] [] (Some true);
    Library_init "CoreVideo" FRAMEWORK None None (Some "CoreVideo")
      (Some "CoreVideo") [] [] [] (Some false);
    Library_init "QuartzCore" FRAMEWORK None None (Some "QuartzCore")
      (Some "QuartzCore") ["QuartzCore.h"] [] [] (Some false);
    Library_init "IOKit" FRAMEWORK None None (Some "IOKit") (Some "IOKit")
      ["IOHIDKeys.h"; "IOKitLib.h"; "IOHIDLib.h"] ["IOMasterPort"] []
      (Some false);
    Library_init "X11" DYNAMIC (Some "X11") (Some "X11") None None ["x11.h"]
      ["XSync"; "XFlush"] [] (Some false);
    Library_init "Xrandr" DYNAMIC (Some "Xrandr") (Some "Xrandr") None None
      ["Xrandr.h"] ["XRRQueryExtension"] ["X11"] (Some false);
    Library_init "Xi" DYNAMIC (Some "Xi") (Some "Xi") None None
      ["XInput2.h"] ["XIQueryVersion"] ["X11"] (Some false);
    Library_init "Xcursor" DYNAMIC (Some "Xcursor") (Some "Xcursor") None
      None ["Xcursor.h"] [] ["X11"] (Some false);
    Library_init "Xxf86vm" DYNAMIC (Some "Xxf86vm") (Some "Xxf86vm") None
      None [] [] [] (Some false);
    Library_init "Xinerama" DYNAMIC (Some "Xinerama") (Some "Xinerama") None
      None [] [] [] (Some false);
    Library_init "dl" DYNAMIC (Some "dl") (Some "dl") None None [] [] []
      None;
    Library_init "ANN" STATIC (Some "ANN") (Some "ANN") None None ["ANN.h"]
      [] [] None;
    Library_init "OpenCV" STATIC (Some "cv") (Some "cv") None None ["cv.h"]
      [] ["OpenCV-Aux"; "OpenCV-Core"] None;
    Library_init "OpenCV-Aux" STATIC (Some "cvaux") (Some "cvaux") None None
      [] [] ["OpenCV-Core"] None;
    Library_init "OpenCV-Core" STATIC (Some "cxcore") (Some "cxcore") None
      None [] [] [] None;
    Library_init "FMOD" DYNAMIC (Some "fmod") (Some "fmod") None None
      ["fmod.hpp"; "fmod.h"] [] ["FFMPEG-codec"; "FFMPEG-util"] None;
    Library_init "mongoose" STATIC (Some "mongoose") (Some "mongoose") None
      None ["mongoose.h"] [] [] None;
    Library_init "civetweb" STATIC (Some "civetweb") (Some "civetweb") None
      None ["civetweb.h"] [] [] None;
    Library_init "qrencode" STATIC (Some "qrencode") (Some "qrencode") None
      None ["qrencode.h"] ["_QRcode_encodeData"] [] None;
    Library_init "irrKlang" DYNAMIC (Some "irrklang") (Some "irrklang") None
      None ["irrKlang.h"] ["createIrrKlangDevice"] [] None;
    Library_init "ply" STATIC (Some "ply") (Some "ply") None None
      ["ply.hpp"] ["ply::ply_parser::parse"] [] None;
    Library_init "tbbmalloc" DYNAMIC (Some "tbbmalloc") (Some "tbbmalloc")
      None None ["tbb.h"] [] [] (Some true);
    Library_init "embree" DYNAMIC (Some "embree") (Some "embree") None None
      ["embree.h"] [] [] None;
    Library_init "tbb" DYNAMIC (Some "tbb") (Some "tbb") None None ["tbb.h"]
      [] ["tbb"] (Some true);
    Library_init "FFMPEG-util" DYNAMIC (Some "avutil") (Some "avutil") None
      None ["avutil.h"] ["av_malloc"] [] None;
    Library_init "FFMPEG-resample" DYNAMIC (Some "swresample")
      (Some "swresample") None None [] [] [] None;
    Library_init "FFMPEG-codec" DYNAMIC (Some "avcodec") (Some "avcodec")
      None None ["avcodec.h"] ["avcodec_open"] ["zlib"; "FFMPEG-resample"]
      None;
    Library_init "FFMPEG-format" DYNAMIC (Some "avformat") (Some "avformat")
      None None ["avformat.h"] ["av_register_all"] ["FFMPEG-util"] None;
    Library_init "FFMPEG-swscale" DYNAMIC (Some "swscale") (Some "swscale")
      None None ["swscale.h"] ["sws_scale"] ["FFMPEG-util"] None;
    Library_init "FFMPEG-filter" DYNAMIC (Some "avfilter") (Some "avfilter")
      None None ["avfiltergraph.h"] ["avfilter_graph_create_filter"]
      ["FFMPEG-util"; "FFMPEG-swscale"] None
  ].

End Catalogue.

(** Loading the module: the tables start empty and the loop registers the
    catalogue. *)
Definition loadLibraries (verbosity TRACE : Z) (isOSX isARM : bool)
  : World * outcome :=
  defineLibraries verbosity TRACE (catalogue isOSX isARM)
    (mkWorld Registry_empty []).

(** ** The rank table *)

(** The pairs that the loop over [libraryTable] collects from the
    [dependsOnList] of every registered library. *)
Definition dependsOnPairs (libraryTable : PyDict.t Library)
  : list (string * string) :=
  fold_left
    (fun pairs parent =>
       match PyDict.get libraryTable parent with
       | Some lib =>
           fold_left (fun pairs child => (pairs ++ [(parent, child)])%list)
             (dependsOnList lib) pairs
       | None => pairs
       end)
    (PyDict.keys libraryTable) [].

(** The list that the code then assigns to [pairs]. *)
Definition linkerOrderPairs : list (string * string) :=
  [("G3D-app", "G3D-gfx"); ("G3D-gfx", "G3D-base"); ("G3D-base", "Cocoa");
   ("Cocoa", "SDL"); ("SDL", "OpenGL"); ("GLU", "OpenGL"); ("G3D-gfx", "glew");
   ("G3D-app", "GLU"); ("G3D-base", "zlib"); ("G3D-base", "zip");
   ("G3D-base", "freeimage"); ("Cocoa", "pthread");
   ("G3D-base", "enet"); ("embree", "tbb");
   ("Cocoa", "zlib"); ("OpenGL", "pthread"); ("Cocoa", "Carbon");
   ("FFMPEG-format", "FFMPEG-codec"); ("FFMPEG-codec", "FFMPEG-util");
   ("FFMPEG-format", "zlib");
   ("G3D-app", "FFMPEG-format"); ("glfw", "X11"); ("glfw", "Xrandr");
   ("glfw", "Xi"); ("glfw", "Xcursor"); ("G3D-base", "X11");
   ("G3D-gfx", "glfw"); ("G3D-app", "assimp");
   ("glfw", "Xxf86vm")].

(** The value of [pairs] where [_makeLibOrder] hands it to
    [pairsToVertexEdgeGraph]: the second assignment replaces the list that
    the loop built. *)
Definition _makeLibOrder_pairs (libraryTable : PyDict.t Library)
  : list (string * string) :=
  let pairs := dependsOnPairs libraryTable in
  let pairs := linkerOrderPairs in
  pairs.

(** [order = {}; for i in range(0, len(L)): order[L[i]] = i] *)
Definition orderOf (L : list string) : PyDict.t Z :=
  fold_left
    (fun order i => PyDict.set order (nth i L "") (Z.of_nat i))
    (seq 0 (List.length L)) PyDict.empty.

(** [_libSorter], with the global [_libOrder] as an argument. The two
    lookups stand for [x in _libOrder] and [y in _libOrder] and for the
    ranks read where both are present. *)
Definition _libSorter (_libOrder : PyDict.t Z) (x y : string) : Z :=
  match PyDict.get _libOrder x, PyDict.get _libOrder y with
  | Some rx, Some ry => rx - ry
  | Some _, None => 1
  | None, Some _ => -1
  | None, None => Z.b2z (PyStr.gt x y) - Z.b2z (PyStr.lt x y)
  end.

(** [cmp2key]: the key class [K] compares by [cmpf(a, b) < 0]. *)
Definition cmp2key (cmpf : string -> string -> Z) (a b : string) : bool :=
  cmpf a b <? 0.

(** [list.sort] is a stable sort that compares with [<] alone; below 64
    elements it is a binary insertion sort, which puts each element behind
    the last one that is not greater. *)
Fixpoint insort (lt : string -> string -> bool) (x : string)
    (sorted : list string) : list string :=
  match sorted with
  | [] => [x]
  | y :: sorted' => if lt x y then x :: sorted else y :: insort lt x sorted'
  end.

Definition list_sort (lt : string -> string -> bool) (l : list string)
  : list string :=
  fold_left (fun sorted x => insort lt x sorted) l [].

(** [a] may stand before [b] in a list sorted with [lt]: [b] is not less
    than [a]. *)
Definition may_precede (lt : string -> string -> bool) (a b : string)
  : Prop :=
  lt b a = false.

Section Ranker.
(** [topsort.py] is not part of the sources at hand: the graph
    representation and the two functions are taken as given. [None] is an
    exception raised by [topSort]. *)
Variables (Edges Vertices : Type).
Variable pairsToVertexEdgeGraph :
  list (string * string) -> Edges * Vertices.
Variable topSort : Edges -> Vertices -> option (list string).

Definition _makeLibOrder (libraryTable : PyDict.t Library)
  : option (PyDict.t Z) :=
  let pairs := _makeLibOrder_pairs libraryTable in
  let '(E, V) := pairsToVertexEdgeGraph pairs in
  match topSort E V with
  | Some L => Some (orderOf L)
  | None => None
  end.

(** [sortLibraries]: the new contents of [liblist]. *)
Definition sortLibraries (libraryTable : PyDict.t Library)
    (liblist : list string) : option (list string) :=
  match _makeLibOrder libraryTable with
  | Some _libOrder =>
      Some (list_sort (cmp2key (_libSorter _libOrder)) liblist)
  | None => None
  end.

End Ranker.

(** ** The graph and the topological sort *)

Module Topsort.

Definition pair_eqb (a b : string * string) : bool :=
  String.eqb (fst a) (fst b) && String.eqb (snd a) (snd b).

(** The first occurrence of every element. *)
Fixpoint dedupe {A : Type} (eqb : A -> A -> bool) (l : list A) : list A :=
  match l with
  | [] => []
  | x :: l' => x :: filter (fun y => negb (eqb x y)) (dedupe eqb l')
  end.

(** Modelled from the spec: [pairsToVertexEdgeGraph] of [topsort.py],
    which is not among the sources. The edges are the pairs, each once;
    the vertices are the names at either end of an edge, each once. *)
Definition pairsToVertexEdgeGraph (pairs : list (string * string))
  : list (string * string) * list string :=
  (dedupe pair_eqb pairs,
   dedupe String.eqb (flat_map (fun pc => [fst pc; snd pc]) pairs)).

Definition mem (v : string) (l : list string) : bool :=
  existsb (String.eqb v) l.

(** No edge enters [v] from a vertex that is still to be placed. *)
Definition ready (E : list (string * string)) (remaining : list string)
    (v : string) : bool :=
  forallb (fun pc => negb (String.eqb (snd pc) v && mem (fst pc) remaining))
    E.

(** The lexicographically least name of a list. *)
Fixpoint least (l : list string) : option string :=
  match l with
  | [] => None
  | x :: l' =>
      match least l' with
      | Some y => if PyStr.lt y x then Some y else Some x
      | None => Some x
      end
  end.

Definition remove (v : string) (l : list string) : list string :=
  filter (fun u => negb (String.eqb u v)) l.

Fixpoint kahn (fuel : nat) (E : list (string * string))
    (remaining : list string) : option (list string) :=
  match remaining with
  | [] => Some []
  | _ :: _ =>
      match fuel with
      | O => None
      | S fuel' =>
          match least (filter (ready E remaining) remaining) with
          | Some v => option_map (cons v) (kahn fuel' E (remove v remaining))
          | None => None
          end
      end
  end.

(** Modelled from the spec: [topSort] of [topsort.py], which is not among
    the sources. Kahn's algorithm: the next vertex is the
    lexicographically least one that no remaining vertex points to;
    when vertices remain and none is free the graph has a cycle, which is
    the error ([None]). Every step places a vertex, so as many steps as
    there are vertices suffice. *)
Definition topSort (E : list (string * string)) (V : list string)
  : option (list string) :=
  kahn (List.length V) E V.

End Topsort.

(** ** The artifact locator *)

Section Locator.
(** [os.uname()[0]]; [pathConcat] of [utils.py], which is not among the
    sources; and the file system as [os.path.exists] and [glob.glob]
    see it. *)
Variable sysname : string.
Variable pathConcat : string -> string -> string.
Variable path_exists : string -> bool.
Variable glob : string -> list string.

(** The first loop: the first directory that holds the exact name, with
    the extension or else with the second one. *)
Fixpoint findExact (lfile : string) (lfile2 : option string)
    (libraryPaths : list string) : option string :=
  match libraryPaths with
  | [] => None
  | path :: libraryPaths' =>
      if path_exists (pathConcat path lfile) then
        Some (pathConcat path lfile)
      else
        match lfile2 with
        | Some lfile2' =>
            if path_exists (pathConcat path lfile2')
            then Some (pathConcat path lfile2')
            else findExact lfile lfile2 libraryPaths'
        | None => findExact lfile lfile2 libraryPaths'
        end
  end.

(** The version that the body of the inner loop reads off a file name:
    [None] where there is no [-] or [float] raises [ValueError]. *)
Definition parseVersion (file : string) : option PyFloat.pyfloat :=
  let i := PyStr.rfind file "-" 0 (-2) in
  if 0 <=? i then PyFloat.float (PyStr.slice file (i + 1) (-3))
  else None.

(** One turn of the inner loop on [(bestVersion, bestFile)]. *)
Definition considerFile (best : PyFloat.pyfloat * option string)
    (file : string) : PyFloat.pyfloat * option string :=
  match parseVersion file with
  | Some version =>
      if PyFloat.gtb version (fst best) then (version, Some file) else best
  | None => best
  end.

(** The files that one turn of the outer loop collects in [path]. *)
Definition versionedFiles (wildlfile : string) (wildlfile2 : option string)
    (path : string) : list string :=
  let files := glob (pathConcat path wildlfile) in
  match wildlfile2 with
  | Some wildlfile2' => (files ++ glob (pathConcat path wildlfile2'))%list
  | None => files
  end.

(** The second loop. *)
Definition findVersioned (wildlfile : string) (wildlfile2 : option string)
    (libraryPaths : list string) : PyFloat.pyfloat * option string :=
  fold_left
    (fun best path =>
       fold_left considerFile (versionedFiles wildlfile wildlfile2 path)
         best)
    libraryPaths (PyFloat.zero, None).

(** The extension and the second extension for a link type. *)
Definition extensions (type : Z) : string * option string :=
  if type =? DYNAMIC then
    if String.eqb sysname "Darwin" then (".dylib", Some ".so")
    else (".so", None)
  else (".a", None).

Definition findLibrary (_lfile : string) (type : Z)
    (libraryPaths : list string) : string :=
  let '(ext, ext2) := extensions type in
  let lfile := "lib" ++ _lfile ++ ext in
  let lfile2 :=
    match ext2 with
    | Some ext2' => Some ("lib" ++ _lfile ++ ext2')
    | None => None
    end in
  match findExact lfile lfile2 libraryPaths with
  | Some found => found
  | None =>
      let wildlfile := "lib" ++ _lfile ++ "-*" ++ ext in
      (* [if ext != None]: [ext] is a string on every path *)
      let wildlfile2 := Some ("lib" ++ _lfile ++ "-*" ++ ext) in
      match snd (findVersioned wildlfile wildlfile2 libraryPaths) with
      | Some bestFile => bestFile
      | None => lfile
      end
  end.

End Locator.

(** What the second loop holds on to: nothing and version zero, or one
    of the files seen together with its version, which is above zero. *)
Definition selected (seen : list string)
    (best : PyFloat.pyfloat * option string) : Prop :=
  best = (PyFloat.zero, None)
  \/ exists v f,
       best = (v, Some f) /\ In f seen /\ parseVersion f = Some v
       /\ PyFloat.gtb v PyFloat.zero = true.

(** ** The artifact locator where [glob.glob] raises *)

Section LocatorRaising.
(** As in [Locator], but [glob.glob] may raise: [None] is the [ValueError]
    that [glob.glob] lets through for a directory whose path holds a NUL.
    The call stands outside the [try], so the exception leaves
    [findLibrary], which is [None] as well. *)
Variable sysname : string.
Variable pathConcat : string -> string -> string.
Variable path_exists : string -> bool.
Variable glob : string -> option (list string).

(** [files = glob(...)] and, for the second pattern, [files += glob(...)]. *)
Definition versionedFilesE (wildlfile : string) (wildlfile2 : option string)
    (path : string) : option (list string) :=
  match glob (pathConcat path wildlfile) with
  | Some files =>
      match wildlfile2 with
      | Some wildlfile2' =>
          match glob (pathConcat path wildlfile2') with
          | Some more => Some (files ++ more)%list
          | None => None
          end
      | None => Some files
      end
  | None => None
  end.

(** The second loop from [(bestVersion, bestFile)] on: it ends with the
    first directory for which [glob.glob] raises. *)
Fixpoint findVersionedE (wildlfile : string) (wildlfile2 : option string)
    (libraryPaths : list string) (best : PyFloat.pyfloat * option string)
  : option (PyFloat.pyfloat * option string) :=
  match libraryPaths with
  | [] => Some best
  | path :: libraryPaths' =>
      match versionedFilesE wildlfile wildlfile2 path with
      | Some files =>
          findVersionedE wildlfile wildlfile2 libraryPaths'
            (fold_left considerFile files best)
      | None => None
      end
  end.

Definition findLibraryE (_lfile : string) (type : Z)
    (libraryPaths : list string) : option string :=
  let '(ext, ext2) := extensions sysname type in
  let lfile := "lib" ++ _lfile ++ ext in
  let lfile2 :=
    match ext2 with
    | Some ext2' => Some ("lib" ++ _lfile ++ ext2')
    | None => None
    end in
  match findExact pathConcat path_exists lfile lfile2 libraryPaths with
  | Some found => Some found
  | None =>
      let wildlfile := "lib" ++ _lfile ++ "-*" ++ ext in
      (* [if ext != None]: [ext] is a string on every path *)
      let wildlfile2 := Some ("lib" ++ _lfile ++ "-*" ++ ext) in
      match findVersionedE wildlfile wildlfile2 libraryPaths
              (PyFloat.zero, None) with
      | Some (_, Some bestFile) => Some bestFile
      | Some (_, None) => Some lfile
      | None => None
      end
  end.

End LocatorRaising.

(** ** A file system to run the locator on *)

Module FileSystem.

(** Modelled from the spec: [pathConcat] of [utils.py], which is not
    among the sources; the path of the file [b] in the directory [a]. *)
Definition pathConcat (a b : string) : string :=
  if String.eqb a "" then b
  else if String.eqb (PyStr.slice a (-1) (PyStr.len a)) "/" then a ++ b
  else a ++ "/" ++ b.

(** A file system is the list of the paths of its files, in the order
    in which a directory listing yields them. *)
Definition t : Type := list string.

Definition path_exists (fs : t) (p : string) : bool :=
  existsb (String.eqb p) fs.

(** Shell-style matching of a path with [*] and [?], neither of which
    crosses a [/]. *)
Fixpoint fnmatch (pat : list ascii) (s : list ascii) : bool :=
  match pat with
  | [] => match s with [] => true | _ => false end
  | "*"%char :: pat' =>
      (fix star (s : list ascii) : bool :=
         fnmatch pat' s
         || match s with
            | c :: s' => negb (Ascii.eqb c "/") && star s'
            | [] => false
            end) s
  | "?"%char :: pat' =>
      match s with
      | c :: s' => negb (Ascii.eqb c "/") && fnmatch pat' s'
      | [] => false
      end
  | p :: pat' =>
      match s with
      | c :: s' => Ascii.eqb p c && fnmatch pat' s'
      | [] => false
      end
  end.

(** [glob.glob] for a pattern whose wildcards are [*] and [?]. *)
Definition glob (fs : t) (pattern : string) : list string :=
  filter
    (fun p => fnmatch (list_ascii_of_string pattern) (list_ascii_of_string p))
    fs.

(** The part of a path in front of its last [/] ([os.path.split]). *)
Definition dirname (p : string) : string :=
  let i := PyStr.rfind p "/" 0 (PyStr.len p) in
  if i <? 0 then "" else PyStr.slice p 0 i.

Definition has_nul (s : string) : bool :=
  existsb (Ascii.eqb zero) (list_ascii_of_string s).

Definition has_magic (s : string) : bool :=
  existsb (fun c => Ascii.eqb c "*" || Ascii.eqb c "?" || Ascii.eqb c "[")
    (list_ascii_of_string s).

(** [glob.glob] with its exception: to list a directory named without
    wildcards it calls [os.scandir], which raises [ValueError] for a path
    with an embedded NUL; [glob] catches [OSError] only. *)
Definition glob_or_raise (fs : t) (pattern : string)
  : option (list string) :=
  if has_nul (dirname pattern) && negb (has_magic (dirname pattern))
  then None
  else Some (glob fs pattern).

End FileSystem.

(** ** Values to run the definitions on *)

(** The rank table that [_makeLibOrder] builds with [Topsort]. *)
Definition linkerOrder : PyDict.t Z :=
  Eval vm_compute in
    match _makeLibOrder _ _ Topsort.pairsToVertexEdgeGraph Topsort.topSort
            PyDict.empty with
    | Some order => order
    | None => PyDict.empty
    end.

(** The list that [Topsort.topSort] returns for the graph of
    [_makeLibOrder]. *)
Definition linkerRanks : list string :=
  Eval vm_compute in
    match Topsort.topSort
            (fst (Topsort.pairsToVertexEdgeGraph linkerOrderPairs))
            (snd (Topsort.pairsToVertexEdgeGraph linkerOrderPairs)) with
    | Some L => L
    | None => []
    end.

(** A directory whose path holds a NUL. *)
Definition nulDirectory : string := "/usr" ++ String zero "lib".

Definition zlibLibrary : Library :=
  Library_init "zlib" DYNAMIC (Some "z") (Some "z") None None ["zlib.h"]
    ["compress2"] [] (Some false).

Definition zipLibrary : Library :=
  Library_init "zip" STATIC (Some "zip") (Some "zip") None None
    ["zip.h"; "zlib.h"] ["zip_close"] ["zlib"] (Some false).

(** A second library that claims the name [zlib]. *)
Definition zlibAgain : Library :=
  Library_init "zlib" STATIC (Some "zlib2") (Some "zlib2d") None None
    ["zlib2.h"] [] [] None.

(** * Properties *)

(** ** The order on strings *)

Lemma ascii_compare_refl (a : ascii) : Ascii.compare a a = Eq.
Proof. unfold Ascii.compare. apply N.compare_refl. Qed.

Lemma ascii_compare_lt_trans (a b c : ascii) :
  Ascii.compare a b = Lt -> Ascii.compare b c = Lt -> Ascii.compare a c = Lt.
Proof.
  unfold Ascii.compare. rewrite !N.compare_lt_iff. apply N.lt_trans.
Qed.

Lemma string_compare_refl (s : string) : String.compare s s = Eq.
Proof.
  induction s as [|a s IH]; simpl; [reflexivity|].
  now rewrite ascii_compare_refl.
Qed.

Lemma string_compare_lt_trans (x : string) :
  forall y z, String.compare x y = Lt -> String.compare y z = Lt ->
              String.compare x z = Lt.
Proof.
  induction x as [|a x IH]; intros [|b y] [|c z]; simpl;
    try discriminate; try reflexivity.
  destruct (Ascii.compare a b) eqn:Hab; try discriminate.
  - apply Ascii.compare_eq_iff in Hab. subst b.
    destruct (Ascii.compare a c); try discriminate; eauto.
  - intros _.
    destruct (Ascii.compare b c) eqn:Hbc; try discriminate.
    + apply Ascii.compare_eq_iff in Hbc. subst c. now rewrite Hab.
    + intros _. now rewrite (ascii_compare_lt_trans a b c).
Qed.

Lemma str_lt_irrefl (x : string) : PyStr.lt x x = false.
Proof. unfold PyStr.lt. now rewrite string_compare_refl. Qed.

Lemma str_lt_trans (x y z : string) :
  PyStr.lt x y = true -> PyStr.lt y z = true -> PyStr.lt x z = true.
Proof.
  unfold PyStr.lt.
  destruct (String.compare x y) eqn:Hxy; try discriminate.
  destruct (String.compare y z) eqn:Hyz; try discriminate.
  now rewrite (string_compare_lt_trans x y z).
Qed.

Lemma str_lt_asym (x y : string) :
  PyStr.lt x y = true -> PyStr.lt y x = false.
Proof.
  unfold PyStr.lt. rewrite (String.compare_antisym y x).
  destruct (String.compare x y); simpl; congruence.
Qed.

Lemma str_lt_total (x y : string) :
  PyStr.lt x y = false -> PyStr.lt y x = false -> x = y.
Proof.
  unfold PyStr.lt. rewrite (String.compare_antisym y x).
  destruct (String.compare x y) eqn:H; simpl; try discriminate.
  intros _ _. now apply String.compare_eq_iff.
Qed.

(** ** Dictionaries *)

Lemma get_set_same {V : Type} (d : PyDict.t V) (k : string) (v : V) :
  PyDict.get (PyDict.set d k v) k = Some v.
Proof.
  induction d as [|[k' v'] d IH]; simpl.
  - now rewrite String.eqb_refl.
  - destruct (String.eqb k' k) eqn:E; simpl; rewrite E; auto.
Qed.

Lemma get_set_other {V : Type} (d : PyDict.t V) (k k' : string) (v : V) :
  k <> k' -> PyDict.get (PyDict.set d k v) k' = PyDict.get d k'.
Proof.
  intros Hne. induction d as [|[k0 v0] d IH]; simpl.
  - destruct (String.eqb_spec k k'); congruence.
  - destruct (String.eqb_spec k0 k) as [->|Hk]; simpl.
    + destruct (String.eqb_spec k k'); congruence.
    + destruct (String.eqb_spec k0 k'); auto.
Qed.

Lemma get_set {V : Type} (d : PyDict.t V) (k k' : string) (v : V) :
  PyDict.get (PyDict.set d k v) k'
  = if String.eqb k k' then Some v else PyDict.get d k'.
Proof.
  destruct (String.eqb_spec k k') as [->|Hne].
  - apply get_set_same.
  - now apply get_set_other.
Qed.

(** ** The rank table built from a list *)

Section OrderOf.
Variable L : list string.

Local Abbreviation step :=
  (fun (order : PyDict.t Z) (i : nat) =>
     PyDict.set order (nth i L "") (Z.of_nat i)).

(** A rank in the table is an index at which the list holds the name. *)
Lemma orderOf_steps_sound (idx : list nat) :
  forall order,
    Forall (fun i => (i < List.length L)%nat) idx ->
    (forall x r, PyDict.get order x = Some r ->
                 0 <= r /\ nth_error L (Z.to_nat r) = Some x) ->
    forall x r, PyDict.get (fold_left step idx order) x = Some r ->
                0 <= r /\ nth_error L (Z.to_nat r) = Some x.
Proof.
  induction idx as [|i idx IH]; intros order Hidx Hinv; simpl; auto.
  inversion Hidx as [|? ? Hi Hidx']; subst.
  apply IH; auto.
  intros x r. rewrite get_set.
  destruct (String.eqb_spec (nth i L "") x) as [<-|_]; auto.
  intros [= <-]. split; [lia|].
  rewrite Nat2Z.id. now apply nth_error_nth'.
Qed.

(** Every index that was visited left its name in the table. *)
Lemma orderOf_steps_complete (idx : list nat) :
  forall order x,
    (In x (map (fun i => nth i L "") idx)
     \/ PyDict.get order x <> None) ->
    PyDict.get (fold_left step idx order) x <> None.
Proof.
  induction idx as [|i idx IH]; intros order x; simpl.
  - intros [[]|H]; exact H.
  - intros H. apply IH.
    destruct H as [[H|H]|H]; auto; right; rewrite get_set.
    + subst x. now rewrite String.eqb_refl.
    + destruct (String.eqb (nth i L "") x); congruence.
Qed.

Lemma orderOf_sound (x : string) (r : Z) :
  PyDict.get (orderOf L) x = Some r ->
  0 <= r /\ nth_error L (Z.to_nat r) = Some x.
Proof.
  apply orderOf_steps_sound.
  - apply Forall_forall. intros i Hi. apply in_seq in Hi. lia.
  - intros ? ?. discriminate.
Qed.

Lemma orderOf_complete (x : string) :
  In x L -> PyDict.get (orderOf L) x <> None.
Proof.
  intros Hx. apply orderOf_steps_complete. left.
  apply In_nth with (d := "") in Hx. destruct Hx as (i & Hi & <-).
  apply in_map_iff. exists i. split; auto. apply in_seq. lia.
Qed.

(** Two names never share a rank. *)
Lemma orderOf_injective (x y : string) (r : Z) :
  PyDict.get (orderOf L) x = Some r ->
  PyDict.get (orderOf L) y = Some r -> x = y.
Proof.
  intros Hx Hy. apply orderOf_sound in Hx, Hy.
  destruct Hx as [_ Hx], Hy as [_ Hy]. congruence.
Qed.

(** In a list without repetition the rank is the position. *)
Lemma orderOf_position (l1 l2 : list string) (x : string) :
  NoDup L -> L = (l1 ++ x :: l2)%list ->
  PyDict.get (orderOf L) x = Some (Z.of_nat (List.length l1)).
Proof.
  intros Hnd HL.
  assert (Hin : In x L) by (rewrite HL; apply in_elt).
  apply orderOf_complete in Hin.
  destruct (PyDict.get (orderOf L) x) as [r|] eqn:Hr; [|congruence].
  apply orderOf_sound in Hr. destruct Hr as [Hr0 Hr].
  assert (Hpos : nth_error L (List.length l1) = Some x).
  { rewrite HL, nth_error_app2, Nat.sub_diag; auto. }
  assert (Hlt : (Z.to_nat r < List.length L)%nat).
  { apply nth_error_Some. congruence. }
  assert (Heq : Z.to_nat r = List.length l1).
  { apply (proj1 (NoDup_nth_error L) Hnd); congruence. }
  f_equal. lia.
Qed.

End OrderOf.

(** ** The comparator is a strict total order *)

Lemma unranked_cmp (x y : string) :
  (Z.b2z (PyStr.gt x y) - Z.b2z (PyStr.lt x y) <? 0) = PyStr.lt x y.
Proof.
  unfold PyStr.gt. destruct (PyStr.lt x y) eqn:Hxy.
  - now rewrite (str_lt_asym x y Hxy).
  - destruct (PyStr.lt y x); reflexivity.
Qed.

(** [K.__lt__] spelled out: unranked names first and in the order of
    [str]; ranked names by rank. *)
Lemma libSorter_lt (o : PyDict.t Z) (x y : string) :
  cmp2key (_libSorter o) x y =
  match PyDict.get o x, PyDict.get o y with
  | Some rx, Some ry => rx <? ry
  | Some _, None => false
  | None, Some _ => true
  | None, None => PyStr.lt x y
  end.
Proof.
  unfold cmp2key, _libSorter.
  destruct (PyDict.get o x) as [rx|], (PyDict.get o y) as [ry|];
    try reflexivity.
  - destruct (Z.ltb_spec rx ry), (Z.ltb_spec (rx - ry) 0); auto; lia.
  - apply unranked_cmp.
Qed.

Section Comparator.
Variable o : PyDict.t Z.
Hypothesis o_injective :
  forall x y r, PyDict.get o x = Some r -> PyDict.get o y = Some r -> x = y.

Local Abbreviation lt := (cmp2key (_libSorter o)).

Lemma lib_lt_irrefl (x : string) : lt x x = false.
Proof.
  rewrite libSorter_lt.
  destruct (PyDict.get o x); [apply Z.ltb_irrefl | apply str_lt_irrefl].
Qed.

Lemma lib_lt_trans (x y z : string) :
  lt x y = true -> lt y z = true -> lt x z = true.
Proof.
  rewrite !libSorter_lt.
  destruct (PyDict.get o x), (PyDict.get o y), (PyDict.get o z);
    try congruence.
  - rewrite !Z.ltb_lt. lia.
  - apply str_lt_trans.
Qed.

Lemma lib_lt_total (x y : string) :
  lt x y = false -> lt y x = false -> x = y.
Proof.
  rewrite !libSorter_lt.
  destruct (PyDict.get o x) as [rx|] eqn:Hx,
           (PyDict.get o y) as [ry|] eqn:Hy; try congruence.
  - rewrite !Z.ltb_ge. intros H1 H2.
    assert (rx = ry) by lia. subst ry. eauto.
  - apply str_lt_total.
Qed.

Lemma lib_lt_asym (x y : string) : lt x y = true -> lt y x = false.
Proof.
  intros Hxy. destruct (lt y x) eqn:Hyx; auto.
  pose proof (lib_lt_trans _ _ _ Hxy Hyx) as H.
  now rewrite lib_lt_irrefl in H.
Qed.

End Comparator.

(** ** Sorting with a strict total order *)

Section Sorting.
Variable lt : string -> string -> bool.
Hypothesis lt_irrefl : forall x, lt x x = false.
Hypothesis lt_trans :
  forall x y z, lt x y = true -> lt y z = true -> lt x z = true.
Hypothesis lt_total :
  forall x y, lt x y = false -> lt y x = false -> x = y.

Local Abbreviation before := (may_precede lt).

Lemma insort_perm (x : string) (l : list string) :
  Permutation (x :: l) (insort lt x l).
Proof.
  induction l as [|y l IH]; simpl; auto.
  destruct (lt x y); auto.
  rewrite perm_swap. now constructor.
Qed.

Lemma list_sort_perm_acc (l : list string) :
  forall acc, Permutation (l ++ acc)%list
                (fold_left (fun sorted x => insort lt x sorted) l acc).
Proof.
  induction l as [|x l IH]; intros acc; simpl; auto.
  rewrite <- IH. rewrite <- insort_perm.
  apply Permutation_middle.
Qed.

Lemma list_sort_perm (l : list string) : Permutation l (list_sort lt l).
Proof.
  unfold list_sort. rewrite <- list_sort_perm_acc. now rewrite app_nil_r.
Qed.

Lemma before_of_lt (x y : string) : lt x y = true -> before x y.
Proof.
  unfold may_precede. intros Hxy. destruct (lt y x) eqn:Hyx; auto.
  pose proof (lt_trans _ _ _ Hxy Hyx) as H. now rewrite lt_irrefl in H.
Qed.

Lemma before_lt_trans (x y z : string) :
  lt x y = true -> before y z -> before x z.
Proof.
  unfold may_precede. intros Hxy Hyz.
  destruct (lt z x) eqn:Hzx; auto.
  now rewrite (lt_trans _ _ _ Hzx Hxy) in Hyz.
Qed.

Lemma insort_sorted (x : string) (l : list string) :
  StronglySorted before l -> StronglySorted before (insort lt x l).
Proof.
  induction 1 as [|y l Hs IH Hy]; simpl.
  - repeat constructor.
  - destruct (lt x y) eqn:Hxy.
    + constructor; [now constructor|].
      constructor; [now apply before_of_lt|].
      eapply Forall_impl; [|exact Hy].
      intros z. now apply before_lt_trans.
    + constructor; auto.
      eapply Permutation_Forall; [apply insort_perm|].
      constructor; auto.
  Qed.

Lemma list_sort_sorted_acc (l : list string) :
  forall acc, StronglySorted before acc ->
    StronglySorted before
      (fold_left (fun sorted x => insort lt x sorted) l acc).
Proof.
  induction l as [|x l IH]; intros acc Hacc; simpl; auto.
  apply IH. now apply insort_sorted.
Qed.

Lemma list_sort_sorted (l : list string) :
  StronglySorted before (list_sort lt l).
Proof. apply list_sort_sorted_acc. constructor. Qed.

(** A list has one sorted arrangement only. *)
Lemma sorted_perm_unique (l1 : list string) :
  forall l2, StronglySorted before l1 -> StronglySorted before l2 ->
             Permutation l1 l2 -> l1 = l2.
Proof.
  induction l1 as [|a l1 IH]; intros l2 H1 H2 Hp.
  - now apply Permutation_nil in Hp.
  - destruct l2 as [|b l2].
    + symmetry in Hp. now apply Permutation_nil in Hp.
    + inversion H1 as [|? ? Hs1 Ha]; inversion H2 as [|? ? Hs2 Hb]; subst.
      assert (a = b) as <-.
      { assert (Hab : In a (b :: l2))
          by (eapply Permutation_in; [exact Hp | now left]).
        assert (Hba : In b (a :: l1))
          by (eapply Permutation_in;
              [symmetry; exact Hp | now left]).
        destruct Hab as [->|Hab]; auto.
        destruct Hba as [->|Hba]; auto.
        rewrite Forall_forall in Ha, Hb.
        apply lt_total; [apply (Hb a Hab) | apply (Ha b Hba)]. }
      f_equal. apply IH; auto. now apply Permutation_cons_inv in Hp.
Qed.

Lemma list_sort_perm_invariant (l l' : list string) :
  Permutation l l' -> list_sort lt l = list_sort lt l'.
Proof.
  intros Hp. apply sorted_perm_unique; try apply list_sort_sorted.
  rewrite <- !list_sort_perm. exact Hp.
Qed.

(** In a sorted list, whatever comes earlier may stand before whatever
    comes later. *)
Lemma sorted_split (l1 l2 l3 : list string) (a b : string) :
  StronglySorted before (l1 ++ a :: l2 ++ b :: l3) -> before a b.
Proof.
  induction l1 as [|c l1 IH]; simpl; intros Hs.
  - inversion Hs as [|? ? _ Ha]; subst.
    rewrite Forall_forall in Ha. apply Ha. apply in_elt.
  - inversion Hs; auto.
Qed.

End Sorting.

(** ** The link order resolver *)

Section Resolver.
Variables (Edges Vertices : Type).
Variable pairsToVertexEdgeGraph :
  list (string * string) -> Edges * Vertices.
Variable topSort : Edges -> Vertices -> option (list string).

Local Abbreviation makeLibOrder :=
  (_makeLibOrder Edges Vertices pairsToVertexEdgeGraph topSort).
Local Abbreviation sortLibs :=
  (sortLibraries Edges Vertices pairsToVertexEdgeGraph topSort).

(** The rank table is always built from the list that [topSort] returned. *)
Lemma makeLibOrder_inv (libraryTable : PyDict.t Library)
    (order : PyDict.t Z) :
  makeLibOrder libraryTable = Some order ->
  exists ranks, order = orderOf ranks.
Proof.
  unfold _makeLibOrder.
  destruct (pairsToVertexEdgeGraph _) as [E V].
  destruct (topSort E V) as [ranks|]; [|discriminate].
  intros [= <-]. now exists ranks.
Qed.

Lemma sortLibs_eq (libraryTable : PyDict.t Library) (order : PyDict.t Z)
    (liblist : list string) :
  makeLibOrder libraryTable = Some order ->
  sortLibs libraryTable liblist
  = Some (list_sort (cmp2key (_libSorter order)) liblist).
Proof.
  unfold sortLibraries. now intros ->.
Qed.

Lemma makeLibOrder_of_topSort (libraryTable : PyDict.t Library)
    (ranks : list string) :
  topSort (fst (pairsToVertexEdgeGraph (_makeLibOrder_pairs libraryTable)))
    (snd (pairsToVertexEdgeGraph (_makeLibOrder_pairs libraryTable)))
  = Some ranks ->
  makeLibOrder libraryTable = Some (orderOf ranks).
Proof.
  unfold _makeLibOrder.
  destruct (pairsToVertexEdgeGraph (_makeLibOrder_pairs libraryTable))
    as [E V].
  simpl. now intros ->.
Qed.

(** C4. Sorting does not depend on the order in which the names come in:
    where [topSort] returns a list for the graph of [_makeLibOrder],
    [sortLibraries] produces a list, two lists that are permutations of
    each other are sorted to the very same list, and that list is a
    permutation of the input (the same names, each as often as it came
    in). *)
Theorem sortLibraries_permutation_invariant
    (libraryTable : PyDict.t Library) (ranks L L' : list string) :
  topSort (fst (pairsToVertexEdgeGraph (_makeLibOrder_pairs libraryTable)))
    (snd (pairsToVertexEdgeGraph (_makeLibOrder_pairs libraryTable)))
  = Some ranks ->
  Permutation L L' ->
  exists out,
    sortLibs libraryTable L = Some out
    /\ sortLibs libraryTable L' = Some out
    /\ Permutation L out.
Proof.
  intros Hranks Hp.
  pose proof (makeLibOrder_of_topSort _ _ Hranks) as Ho.
  set (lt := cmp2key (_libSorter (orderOf ranks))).
  exists (list_sort lt L).
  rewrite !(sortLibs_eq _ _ _ Ho). fold lt.
  split; [reflexivity|]. split.
  - f_equal. symmetry.
    apply list_sort_perm_invariant; auto; unfold lt.
    + apply lib_lt_irrefl.
    + apply lib_lt_trans.
    + apply lib_lt_total, orderOf_injective.
  - apply list_sort_perm.
Qed.

(** C5. In the sorted list no ranked name stands before an unranked one;
    of two unranked names the earlier one is not greater as a string;
    of two ranked names the earlier one has the rank that is not
    greater. Whenever the rank table can be built the sort returns such
    a list, a permutation of its input. *)
Theorem sortLibraries_unranked_first
    (libraryTable : PyDict.t Library) (order : PyDict.t Z)
    (liblist : list string) :
  makeLibOrder libraryTable = Some order ->
  exists out,
    sortLibs libraryTable liblist = Some out
    /\ Permutation liblist out
    /\ forall l1 a l2 b l3,
         out = (l1 ++ a :: l2 ++ b :: l3)%list ->
         (PyDict.get order b = None -> PyDict.get order a = None)
         /\ (PyDict.get order a = None -> PyDict.get order b = None ->
             PyStr.lt b a = false)
         /\ (forall ra rb,
               PyDict.get order a = Some ra ->
               PyDict.get order b = Some rb -> ra <= rb).
Proof.
  intros Ho. destruct (makeLibOrder_inv _ _ Ho) as [ranks ->].
  set (lt := cmp2key (_libSorter (orderOf ranks))).
  assert (Hirr : forall x, lt x x = false) by apply lib_lt_irrefl.
  assert (Htr : forall x y z, lt x y = true -> lt y z = true ->
                              lt x z = true) by apply lib_lt_trans.
  exists (list_sort lt liblist).
  split; [apply (sortLibs_eq _ _ _ Ho)|].
  split; [apply list_sort_perm|].
  intros l1 a l2 b l3 Hout.
  pose proof (list_sort_sorted lt Hirr Htr liblist) as Hs.
  rewrite Hout in Hs. apply sorted_split in Hs.
  unfold may_precede, lt in Hs. rewrite libSorter_lt in Hs.
  destruct (PyDict.get (orderOf ranks) a) as [ra|],
           (PyDict.get (orderOf ranks) b) as [rb|];
    try discriminate; repeat split; try congruence.
  intros ? ? [= <-] [= <-]. now apply Z.ltb_ge.
Qed.

End Resolver.

(** ** The topological sort yields a linear extension *)

Lemma pair_eqb_spec (a b : string * string) :
  Topsort.pair_eqb a b = true <-> a = b.
Proof.
  destruct a as [a1 a2], b as [b1 b2]. unfold Topsort.pair_eqb. simpl.
  rewrite andb_true_iff, !String.eqb_eq. split.
  - now intros [-> ->].
  - now intros [= -> ->].
Qed.

Lemma dedupe_In {A : Type} (eqb : A -> A -> bool)
    (eqb_spec : forall a b, eqb a b = true <-> a = b) (l : list A) (x : A) :
  In x (Topsort.dedupe eqb l) <-> In x l.
Proof.
  induction l as [|y l IH]; simpl; [tauto|].
  rewrite filter_In, IH. split.
  - tauto.
  - intros [->|Hx]; auto.
    destruct (eqb y x) eqn:E.
    + left. now apply eqb_spec.
    + right. now split.
Qed.

Lemma dedupe_NoDup {A : Type} (eqb : A -> A -> bool)
    (eqb_spec : forall a b, eqb a b = true <-> a = b) (l : list A) :
  NoDup (Topsort.dedupe eqb l).
Proof.
  induction l as [|y l IH]; simpl; constructor.
  - rewrite filter_In. intros [_ H].
    now rewrite (proj2 (eqb_spec y y) eq_refl) in H.
  - now apply NoDup_filter.
Qed.

Lemma mem_In (v : string) (l : list string) :
  Topsort.mem v l = true <-> In v l.
Proof.
  unfold Topsort.mem. rewrite existsb_exists. split.
  - intros (x & Hx & E). apply String.eqb_eq in E. now subst.
  - intros H. exists v. now rewrite String.eqb_refl.
Qed.

Lemma least_In (l : list string) (v : string) :
  Topsort.least l = Some v -> In v l.
Proof.
  revert v. induction l as [|x l IH]; simpl; [discriminate|].
  intros v. destruct (Topsort.least l) as [y|].
  - destruct (PyStr.lt y x); intros [= <-]; auto.
  - intros [= <-]. auto.
Qed.

Lemma remove_In (v x : string) (l : list string) :
  In x (Topsort.remove v l) <-> In x l /\ x <> v.
Proof.
  unfold Topsort.remove. rewrite filter_In, negb_true_iff, String.eqb_neq.
  tauto.
Qed.

(** No edge enters a ready vertex from among the remaining ones. *)
Lemma ready_no_parent (E : list (string * string)) (remaining : list string)
    (v p : string) :
  Topsort.ready E remaining v = true -> In (p, v) E -> ~ In p remaining.
Proof.
  unfold Topsort.ready. rewrite forallb_forall. intros Hr Hin Hp.
  specialize (Hr _ Hin). simpl in Hr.
  rewrite String.eqb_refl, (proj2 (mem_In p remaining) Hp) in Hr.
  discriminate.
Qed.

Lemma kahn_step (E : list (string * string)) (fuel : nat)
    (remaining : list string) :
  remaining <> [] ->
  Topsort.kahn (S fuel) E remaining =
  match Topsort.least (filter (Topsort.ready E remaining) remaining) with
  | Some v =>
      option_map (cons v) (Topsort.kahn fuel E (Topsort.remove v remaining))
  | None => None
  end.
Proof. destruct remaining; [congruence | reflexivity]. Qed.

(** What a run of [kahn] returns holds the remaining vertices, each once,
    with the parent of every edge among them ahead of the child. *)
Lemma kahn_sound (E : list (string * string)) (fuel : nat) :
  forall remaining L,
    Topsort.kahn fuel E remaining = Some L ->
    (forall x, In x L <-> In x remaining)
    /\ NoDup L
    /\ (forall p c, In (p, c) E -> In p remaining -> In c remaining ->
          exists l1 l2, L = (l1 ++ p :: l2)%list /\ In c l2).
Proof.
  induction fuel as [|fuel IH]; intros remaining L.
  - destruct remaining; simpl; [|discriminate].
    intros [= <-]. repeat split; try tauto; try constructor;
      try (intros ? ? _ []).
  - destruct remaining as [|r0 remaining0].
    { intros [= <-]. repeat split; try tauto; try constructor;
        try (intros ? ? _ []). }
    rewrite kahn_step by discriminate. set (remaining := r0 :: remaining0).
    destruct (Topsort.least _) as [v|] eqn:Hv; [|discriminate].
    apply least_In, filter_In in Hv. destruct Hv as [Hvin Hready].
    destruct (Topsort.kahn fuel E (Topsort.remove v remaining))
      as [L'|] eqn:HL'; simpl; [|discriminate].
    intros [= <-]. destruct (IH _ _ HL') as (Hmem & Hnd & Hord).
    split; [|split].
    + intros x. simpl. rewrite Hmem, remove_In.
      destruct (String.eqb_spec v x) as [->|Hne]; [tauto|].
      split; [intros [?|[? ?]]; [congruence|auto] | auto].
    + constructor; auto. rewrite Hmem, remove_In. tauto.
    + intros p c Hpc Hp Hc.
      assert (Hcv : c <> v).
      { intros ->. exact (ready_no_parent _ _ _ _ Hready Hpc Hp). }
      destruct (String.eqb_spec p v) as [->|Hpv].
      * exists [], L'. split; auto. apply Hmem, remove_In. auto.
      * destruct (Hord p c Hpc) as (l1 & l2 & -> & Hin);
          try (apply remove_In; auto).
        exists (v :: l1), l2. auto.
Qed.

(** The rank table built from the result of [Topsort.topSort] puts the
    parent of every edge strictly before the child. *)
Lemma topSort_linear_extension (pairs : list (string * string))
    (L : list string) :
  Topsort.topSort (fst (Topsort.pairsToVertexEdgeGraph pairs))
    (snd (Topsort.pairsToVertexEdgeGraph pairs)) = Some L ->
  forall p c, In (p, c) pairs ->
    exists rp rc,
      PyDict.get (orderOf L) p = Some rp
      /\ PyDict.get (orderOf L) c = Some rc
      /\ rp < rc.
Proof.
  unfold Topsort.topSort, Topsort.pairsToVertexEdgeGraph. simpl.
  intros HL p c Hpc.
  destruct (kahn_sound _ _ _ _ HL) as (_ & Hnd & Hord).
  assert (Hends : forall x, x = p \/ x = c ->
            In x (Topsort.dedupe String.eqb
                    (flat_map (fun pc => [fst pc; snd pc]) pairs))).
  { intros x Hx. apply dedupe_In; [apply String.eqb_eq|].
    apply in_flat_map. exists (p, c).
    destruct Hx as [->| ->]; simpl; auto. }
  destruct (Hord p c) as (l1 & l2 & HLeq & Hc); auto.
  { apply dedupe_In; [apply pair_eqb_spec | exact Hpc]. }
  apply in_split in Hc. destruct Hc as (l3 & l4 & ->).
  exists (Z.of_nat (List.length l1)),
         (Z.of_nat (List.length (l1 ++ p :: l3))).
  split; [now apply orderOf_position with (l2 := (l3 ++ c :: l4)%list)|].
  split.
  - apply orderOf_position with (l2 := l4); auto.
    rewrite HLeq, <- app_assoc. reflexivity.
  - rewrite length_app. simpl. lia.
Qed.

(** Four names whose ranks ascend from [G3D-app] to [zlib] are sorted
    into that order. *)
Lemma sort_g3d_chain (o : PyDict.t Z) (ra rg rb rz : Z) :
  PyDict.get o "G3D-app" = Some ra ->
  PyDict.get o "G3D-gfx" = Some rg ->
  PyDict.get o "G3D-base" = Some rb ->
  PyDict.get o "zlib" = Some rz ->
  ra < rg -> rg < rb -> rb < rz ->
  list_sort (cmp2key (_libSorter o)) ["zlib"; "G3D-base"; "G3D-app"; "G3D-gfx"]
  = ["G3D-app"; "G3D-gfx"; "G3D-base"; "zlib"].
Proof.
  intros Ha Hg Hb Hz Hag Hgb Hbz.
  assert (Hlt : forall x y rx ry,
            PyDict.get o x = Some rx -> PyDict.get o y = Some ry ->
            cmp2key (_libSorter o) x y = (rx <? ry)).
  { intros x y rx ry Hx Hy. now rewrite libSorter_lt, Hx, Hy. }
  unfold list_sort. cbn [fold_left insort].
  rewrite (Hlt _ _ _ _ Hb Hz), (proj2 (Z.ltb_lt rb rz)) by lia.
  cbn [insort].
  rewrite (Hlt _ _ _ _ Ha Hb), (proj2 (Z.ltb_lt ra rb)) by lia.
  cbn [insort].
  rewrite (Hlt _ _ _ _ Hg Ha), (proj2 (Z.ltb_ge rg ra)) by lia.
  rewrite (Hlt _ _ _ _ Hg Hb), (proj2 (Z.ltb_lt rg rb)) by lia.
  reflexivity.
Qed.

(** C6. The rank table that [_makeLibOrder] computes is a linear extension
    of the graph it sorts: the table exists, and along every edge of the
    graph the rank of the parent is strictly below the rank of the child.
    The graph holds the edges (G3D-app, G3D-gfx), (G3D-gfx, G3D-base) and
    (G3D-base, zlib), and [zlib, G3D-base, G3D-app, G3D-gfx] is sorted to
    [G3D-app, G3D-gfx, G3D-base, zlib]; the same holds for every list of
    pairs with these three edges that [topSort] accepts. *)
Theorem makeLibOrder_linear_extension (libraryTable : PyDict.t Library) :
  (exists order,
     _makeLibOrder _ _ Topsort.pairsToVertexEdgeGraph Topsort.topSort
       libraryTable = Some order
     /\ forall p c,
          In (p, c)
            (fst (Topsort.pairsToVertexEdgeGraph
                    (_makeLibOrder_pairs libraryTable))) ->
          exists rp rc,
            PyDict.get order p = Some rp
            /\ PyDict.get order c = Some rc
            /\ rp < rc)
  /\ incl [("G3D-app", "G3D-gfx"); ("G3D-gfx", "G3D-base");
           ("G3D-base", "zlib")]
       (fst (Topsort.pairsToVertexEdgeGraph
               (_makeLibOrder_pairs libraryTable)))
  /\ sortLibraries _ _ Topsort.pairsToVertexEdgeGraph Topsort.topSort
       libraryTable ["zlib"; "G3D-base"; "G3D-app"; "G3D-gfx"]
     = Some ["G3D-app"; "G3D-gfx"; "G3D-base"; "zlib"]
  /\ forall pairs L,
       incl [("G3D-app", "G3D-gfx"); ("G3D-gfx", "G3D-base");
             ("G3D-base", "zlib")] pairs ->
       Topsort.topSort (fst (Topsort.pairsToVertexEdgeGraph pairs))
         (snd (Topsort.pairsToVertexEdgeGraph pairs)) = Some L ->
       list_sort (cmp2key (_libSorter (orderOf L)))
         ["zlib"; "G3D-base"; "G3D-app"; "G3D-gfx"]
       = ["G3D-app"; "G3D-gfx"; "G3D-base"; "zlib"].
Proof.
  assert (Hgen : forall pairs L,
            incl [("G3D-app", "G3D-gfx"); ("G3D-gfx", "G3D-base");
                  ("G3D-base", "zlib")] pairs ->
            Topsort.topSort (fst (Topsort.pairsToVertexEdgeGraph pairs))
              (snd (Topsort.pairsToVertexEdgeGraph pairs)) = Some L ->
            list_sort (cmp2key (_libSorter (orderOf L)))
              ["zlib"; "G3D-base"; "G3D-app"; "G3D-gfx"]
            = ["G3D-app"; "G3D-gfx"; "G3D-base"; "zlib"]).
  { intros pairs L Hin HL.
    pose proof (topSort_linear_extension pairs L HL) as Hext.
    destruct (Hext "G3D-app" "G3D-gfx") as (ra & rg & Ha & Hg & Hag);
      [apply Hin; simpl; tauto|].
    destruct (Hext "G3D-gfx" "G3D-base") as (rg' & rb & Hg' & Hb & Hgb);
      [apply Hin; simpl; tauto|].
    destruct (Hext "G3D-base" "zlib") as (rb' & rz & Hb' & Hz & Hbz);
      [apply Hin; simpl; tauto|].
    assert (rg' = rg) by congruence. assert (rb' = rb) by congruence.
    subst. now apply (sort_g3d_chain _ ra rg rb rz). }
  assert (Hedges : incl [("G3D-app", "G3D-gfx"); ("G3D-gfx", "G3D-base");
                         ("G3D-base", "zlib")] linkerOrderPairs).
  { intros e He. simpl in He. unfold linkerOrderPairs.
    repeat (destruct He as [<-|He]; [simpl; tauto|]). destruct He. }
  destruct (Topsort.topSort
              (fst (Topsort.pairsToVertexEdgeGraph linkerOrderPairs))
              (snd (Topsort.pairsToVertexEdgeGraph linkerOrderPairs)))
    as [L|] eqn:HL; [|vm_compute in HL; discriminate].
  assert (Ho : _makeLibOrder _ _ Topsort.pairsToVertexEdgeGraph
                 Topsort.topSort libraryTable = Some (orderOf L)).
  { unfold _makeLibOrder, _makeLibOrder_pairs.
    destruct (Topsort.pairsToVertexEdgeGraph linkerOrderPairs) as [E V].
    simpl in HL. now rewrite HL. }
  split; [|split; [|split]].
  - exists (orderOf L). split; [exact Ho|].
    intros p c Hpc. apply (topSort_linear_extension _ _ HL).
    unfold Topsort.pairsToVertexEdgeGraph in Hpc. cbn [fst] in Hpc.
    now apply (dedupe_In _ pair_eqb_spec) in Hpc.
  - intros e He. unfold Topsort.pairsToVertexEdgeGraph. cbn [fst].
    apply (dedupe_In _ pair_eqb_spec). now apply Hedges.
  - unfold sortLibraries. rewrite Ho. f_equal. now apply (Hgen _ _ Hedges).
  - exact Hgen.
Qed.

(** ** The pairs that reach the topological sort *)

(** What is printed has no part in what is registered. *)
Lemma defineLibrary_registry (v t v' t' : Z) (lib : Library) (w w' : World) :
  registry w = registry w' ->
  registry (fst (defineLibrary v t lib w))
  = registry (fst (defineLibrary v' t' lib w'))
  /\ snd (defineLibrary v t lib w) = snd (defineLibrary v' t' lib w').
Proof.
  intros Hr. unfold defineLibrary. rewrite Hr.
  destruct (PyDict.contains _ _); simpl; auto.
Qed.

Lemma defineLibraries_registry (v t v' t' : Z) (libs : list Library) :
  forall w w',
    registry w = registry w' ->
    registry (fst (defineLibraries v t libs w))
    = registry (fst (defineLibraries v' t' libs w'))
    /\ snd (defineLibraries v t libs w) = snd (defineLibraries v' t' libs w').
Proof.
  induction libs as [|lib libs IH]; intros w w' Hr; simpl; auto.
  destruct (defineLibrary_registry v t v' t' lib w w' Hr) as [H1 H2].
  destruct (defineLibrary v t lib w) as [w1 o1],
           (defineLibrary v' t' lib w') as [w1' o1'].
  simpl in H1, H2. subst o1'. destruct o1; auto.
Qed.

Lemma loadLibraries_registry (verbosity TRACE : Z) (isOSX isARM : bool) :
  registry (fst (loadLibraries verbosity TRACE isOSX isARM))
  = registry (fst (loadLibraries 0 1 isOSX isARM))
  /\ snd (loadLibraries verbosity TRACE isOSX isARM)
     = snd (loadLibraries 0 1 isOSX isARM).
Proof. now apply defineLibraries_registry. Qed.

(** C1. The graph does not hold the pairs of the [dependsOnList]s: whatever
    is registered, the pairs handed on are the fixed list alone. In the
    catalogue that the module itself registers, on every platform, [zip]
    depends on [zlib], the loop collects the pair (zip, zlib), and the
    graph has no such edge. *)
Theorem makeLibOrder_pairs_drop_dependsOn :
  (forall libraryTable, _makeLibOrder_pairs libraryTable = linkerOrderPairs)
  /\ forall verbosity TRACE isOSX isARM,
       let loaded := loadLibraries verbosity TRACE isOSX isARM in
       let table := libraryTable (registry (fst loaded)) in
       snd loaded = Returned
       /\ (exists zip,
             PyDict.get table "zip" = Some zip
             /\ In "zlib" (dependsOnList zip))
       /\ In ("zip", "zlib") (dependsOnPairs table)
       /\ ~ In ("zip", "zlib")
             (fst (Topsort.pairsToVertexEdgeGraph
                     (_makeLibOrder_pairs table))).
Proof.
  split; [reflexivity|].
  intros verbosity TRACE isOSX isARM. cbv zeta.
  destruct (loadLibraries_registry verbosity TRACE isOSX isARM) as [-> ->].
  split; [|split; [|split]].
  - destruct isOSX, isARM; vm_compute; reflexivity.
  - exists (Library_init "zip" STATIC (Some "zip") (Some "zip") None None
              ["zip.h"] ["zip_close"] ["zlib"] (Some false)).
    split; [destruct isOSX, isARM; vm_compute; reflexivity | simpl; auto].
  - destruct isOSX, isARM; vm_compute; tauto.
  - unfold Topsort.pairsToVertexEdgeGraph, _makeLibOrder_pairs. cbn [fst].
    rewrite (dedupe_In _ pair_eqb_spec). unfold linkerOrderPairs. simpl.
    intros H. repeat (destruct H as [H|H]; [discriminate H|]). exact H.
Qed.

(** The pairs of the [dependsOnList]s could not all be edges of a graph
    that has a linear extension: the catalogue makes [tbb] depend on
    itself. *)
Remark dependsOnPairs_self_loop (verbosity TRACE : Z) (isOSX isARM : bool) :
  In ("tbb", "tbb")
    (dependsOnPairs
       (libraryTable
          (registry (fst (loadLibraries verbosity TRACE isOSX isARM))))).
Proof.
  destruct (loadLibraries_registry verbosity TRACE isOSX isARM) as [-> _].
  destruct isOSX, isARM; vm_compute; tauto.
Qed.

(** ** The registry *)

Section Registration.
Variables (verbosity TRACE : Z).

Local Abbreviation define := (defineLibrary verbosity TRACE).
Local Abbreviation defineAll := (defineLibraries verbosity TRACE).

(** A new name is registered under its record. *)
Lemma defineLibrary_new (lib : Library) (w : World) :
  PyDict.contains (libraryTable (registry w)) (name lib) = false ->
  exists w',
    define lib w = (w', Returned)
    /\ PyDict.get (libraryTable (registry w')) (name lib) = Some lib.
Proof.
  intros Hnew. unfold defineLibrary. rewrite Hnew.
  eexists. split; [reflexivity|]. simpl. apply get_set_same.
Qed.

Lemma defineLibraries_app (libs1 libs2 : list Library) :
  forall w w1,
    defineAll libs1 w = (w1, Returned) ->
    defineAll (libs1 ++ libs2) w = defineAll libs2 w1.
Proof.
  induction libs1 as [|lib libs1 IH]; intros w w1; simpl.
  - now intros [= <-].
  - destruct (define lib w) as [w' [|code]]; [apply IH | discriminate].
Qed.

(** C7. Registering a library under a name that the table already holds
    ends the process with exit code -1 after the message that the library
    is defined twice; the three tables are what they were before the
    call, and the libraries that the loop would register next are not
    registered. In particular, of two libraries with one name the second
    leaves the tables as the first registration made them, with the name
    bound to the first record. *)
Theorem defineLibrary_duplicate (earlier later : list Library)
    (lib : Library) (w w1 : World) :
  defineAll earlier w = (w1, Returned) ->
  PyDict.contains (libraryTable (registry w1)) (name lib) = true ->
  exists w2,
    define lib w1 = (w2, SysExit (-1))
    /\ registry w2 = registry w1
    /\ last (stdout w2) (Print "")
       = ColorPrint ("ERROR: Library '" ++ name lib ++ "' defined twice.")
    /\ defineAll (earlier ++ lib :: later)%list w = (w2, SysExit (-1))
    /\ forall first second w0 w',
         name second = name first ->
         PyDict.contains (libraryTable (registry w0)) (name first) = false ->
         define first w0 = (w', Returned) ->
         exists w'',
           defineAll (first :: second :: later) w0 = (w'', SysExit (-1))
           /\ registry w'' = registry w'
           /\ PyDict.get (libraryTable (registry w'')) (name second)
              = Some first.
Proof.
  intros Hearlier Hdup.
  assert (Hfail : forall l v, 
            PyDict.contains (libraryTable (registry v)) (name l) = true ->
            exists v',
              define l v = (v', SysExit (-1))
              /\ registry v' = registry v
              /\ last (stdout v') (Print "")
                 = ColorPrint ("ERROR: Library '" ++ name l
                               ++ "' defined twice.")).
  { intros l v Hl. unfold defineLibrary. rewrite Hl.
    eexists. split; [reflexivity|]. split; [reflexivity|].
    simpl. apply last_last. }
  destruct (Hfail lib w1 Hdup) as (w2 & Hdef & Hreg & Hout).
  exists w2. repeat split; auto.
  - rewrite (defineLibraries_app _ _ _ _ Hearlier). simpl. now rewrite Hdef.
  - intros first second w0 w' Hname Hnew Hfirst.
    destruct (defineLibrary_new first w0 Hnew) as (w'1 & Hfirst' & Hget).
    assert (w'1 = w') by congruence. subst w'1.
    assert (Hin : PyDict.contains (libraryTable (registry w')) (name second)
                  = true).
    { unfold PyDict.contains. now rewrite Hname, Hget. }
    destruct (Hfail second w' Hin) as (w'' & Hdef' & Hreg' & _).
    exists w''. simpl. rewrite Hfirst, Hdef'. repeat split; auto.
    now rewrite Hreg', Hname.
Qed.

End Registration.


(** ** The records *)

Lemma catalogue_static_not_deployed (isOSX isARM : bool) :
  forallb (fun lib => negb (type lib =? STATIC) || negb (deploy lib))
    (catalogue isOSX isARM) = true.
Proof. destruct isOSX, isARM; vm_compute; reflexivity. Qed.

(** C9. A library constructed as [STATIC] has [deploy] false whatever is
    passed for it, so that every constructed record satisfies
    [type == STATIC] implies [deploy == False]; a library of any other type
    keeps the [deploy] that is passed ([True] where none is). So do the
    records of the catalogue, on every platform. *)
Theorem Library_init_deploy (nm : string) (ty : Z)
    (rel dbg relF dbgF : option string) (headers symbols depends : list string)
    (dep : option bool) :
  let make t :=
    Library_init nm t rel dbg relF dbgF headers symbols depends dep in
  deploy (make STATIC) = false
  /\ (type (make ty) = STATIC -> deploy (make ty) = false)
  /\ (ty <> STATIC ->
      deploy (make ty) = match dep with Some b => b | None => true end)
  /\ forall isOSX isARM lib,
       In lib (catalogue isOSX isARM) -> type lib = STATIC ->
       deploy lib = false.
Proof.
  cbv zeta. unfold Library_init. simpl. repeat split.
  - intros ->. reflexivity.
  - intros Hty. now rewrite (proj2 (Z.eqb_neq ty STATIC) Hty).
  - intros isOSX isARM lib Hin Hty.
    pose proof (catalogue_static_not_deployed isOSX isARM) as H.
    rewrite forallb_forall in H. specialize (H lib Hin).
    rewrite Hty in H. simpl in H. now destruct (deploy lib).
Qed.

(** ** Floats *)

Lemma pow2_pos (n : Z) : 0 <= n -> 0 < 2 ^ n.
Proof. intros. apply Z.pow_pos_nonneg; lia. Qed.

(** Above zero are the positive infinity and the finite values with a
    positive significand. *)
Lemma gtb_zero (v : PyFloat.pyfloat) :
  PyFloat.gtb v PyFloat.zero = true <->
  v = PyFloat.Inf false \/ exists m e, v = PyFloat.Fin m e /\ 0 < m.
Proof.
  destruct v as [|[|]|m e]; simpl.
  - split; [discriminate | intros [H|(? & ? & H & _)]; discriminate].
  - split; [discriminate | intros [H|(? & ? & H & _)]; discriminate].
  - split; auto.
  - unfold PyFloat.fin_ltb. rewrite Z.ltb_lt.
    assert (Hp : 0 < 2 ^ (e - Z.min 0 e)) by (apply pow2_pos; lia).
    split.
    + intros H. right. exists m, e. split; auto. nia.
    + intros [H|(m' & e' & [= <- <-] & Hm)]; [discriminate | nia].
Qed.

(** Whatever is greater than a value that is zero or above zero is above
    zero. *)
Lemma gtb_above_zero (v b : PyFloat.pyfloat) :
  PyFloat.gtb v b = true ->
  b = PyFloat.zero \/ PyFloat.gtb b PyFloat.zero = true ->
  PyFloat.gtb v PyFloat.zero = true.
Proof.
  intros Hvb [->|Hb]; auto.
  apply gtb_zero in Hb. apply gtb_zero.
  destruct Hb as [->|(mb & eb & -> & Hmb)].
  - destruct v as [|[|]|]; discriminate.
  - destruct v as [|[|]|m e]; simpl in Hvb; try discriminate; auto.
    right. exists m, e. split; auto.
    unfold PyFloat.fin_ltb in Hvb. apply Z.ltb_lt in Hvb.
    assert (0 < 2 ^ (eb - Z.min eb e)) by (apply pow2_pos; lia).
    assert (0 < 2 ^ (e - Z.min eb e)) by (apply pow2_pos; lia).
    nia.
Qed.

(** ** The artifact locator *)

Section LocatorFacts.
Variable sysname : string.
Variable pathConcat : string -> string -> string.
Variable path_exists : string -> bool.
Variable glob : string -> list string.

Local Abbreviation findExact' := (findExact pathConcat path_exists).
Local Abbreviation versionedFiles' := (versionedFiles pathConcat glob).
Local Abbreviation findVersioned' := (findVersioned pathConcat glob).
Local Abbreviation extensions' := (extensions sysname).
Local Abbreviation findLibrary' :=
  (findLibrary sysname pathConcat path_exists glob).

(** The first loop finds nothing where none of the names exists. *)
Lemma findExact_none (lfile : string) (lfile2 : option string)
    (libraryPaths : list string) :
  (forall path, In path libraryPaths ->
     path_exists (pathConcat path lfile) = false
     /\ forall l2, lfile2 = Some l2 ->
                   path_exists (pathConcat path l2) = false) ->
  findExact' lfile lfile2 libraryPaths = None.
Proof.
  induction libraryPaths as [|path paths IH]; intros H; simpl; auto.
  destruct (H path (or_introl eq_refl)) as [-> H2].
  destruct lfile2 as [l2|].
  - rewrite (H2 l2 eq_refl). apply IH. intros p Hp. apply H. now right.
  - apply IH. intros p Hp. apply H. now right.
Qed.

Lemma selected_incl (seen seen' : list string)
    (best : PyFloat.pyfloat * option string) :
  incl seen seen' -> selected seen best -> selected seen' best.
Proof.
  intros Hincl [->|(v & f & -> & Hin & Hv & Hpos)]; [now left|].
  right. exists v, f. auto.
Qed.

Lemma considerFile_selected (seen : list string) (file : string)
    (best : PyFloat.pyfloat * option string) :
  selected seen best -> selected (file :: seen) (considerFile best file).
Proof.
  intros Hbest. unfold considerFile.
  destruct (parseVersion file) as [version|] eqn:Hv.
  - destruct (PyFloat.gtb version (fst best)) eqn:Hgt.
    + right. exists version, file. repeat split; auto; [now left|].
      apply (gtb_above_zero _ _ Hgt).
      destruct Hbest as [->|(v & f & -> & _ & _ & Hpos)]; auto.
    + eapply selected_incl; [|exact Hbest]. now apply incl_tl.
  - eapply selected_incl; [|exact Hbest]. now apply incl_tl.
Qed.

Lemma considerFiles_selected (files : list string) :
  forall seen best,
    selected seen best ->
    selected (rev files ++ seen) (fold_left considerFile files best).
Proof.
  induction files as [|file files IH]; intros seen best Hbest; simpl; auto.
  rewrite <- app_assoc. simpl. apply IH. now apply considerFile_selected.
Qed.

(** The files that the second loop looks at. *)
Lemma findVersioned_selected (wildlfile : string) (wildlfile2 : option string)
    (libraryPaths : list string) :
  selected (flat_map (versionedFiles' wildlfile wildlfile2) libraryPaths)
    (findVersioned' wildlfile wildlfile2 libraryPaths).
Proof.
  unfold findVersioned.
  assert (H : forall paths seen best,
            selected seen best ->
            selected (flat_map (versionedFiles' wildlfile wildlfile2) paths
                      ++ seen)
              (fold_left
                 (fun best path =>
                    fold_left considerFile
                      (versionedFiles' wildlfile wildlfile2 path) best)
                 paths best)).
  { induction paths as [|path paths IH]; intros seen best Hbest; simpl; auto.
    eapply selected_incl; [|apply IH, considerFiles_selected, Hbest].
    intros f. rewrite !in_app_iff, <- in_rev.
    intros [H|[H|H]]; auto. }
  specialize (H libraryPaths [] (PyFloat.zero, None) (or_introl eq_refl)).
  now rewrite app_nil_r in H.
Qed.

(** A file whose version is not above zero changes nothing. *)
Lemma considerFiles_unselected (files : list string) :
  (forall file v, In file files -> parseVersion file = Some v ->
                  PyFloat.gtb v PyFloat.zero = false) ->
  fold_left considerFile files (PyFloat.zero, None) = (PyFloat.zero, None).
Proof.
  induction files as [|file files IH]; intros H; simpl; auto.
  assert (Hstep : considerFile (PyFloat.zero, None) file
                  = (PyFloat.zero, None)).
  { unfold considerFile.
    destruct (parseVersion file) as [v|] eqn:Hv; auto.
    simpl. now rewrite (H file v (or_introl eq_refl) Hv). }
  rewrite Hstep. apply IH. intros f v Hf. apply H. now right.
Qed.

Lemma findVersioned_unselected (wildlfile : string)
    (wildlfile2 : option string) (libraryPaths : list string) :
  (forall path file v,
     In path libraryPaths ->
     In file (versionedFiles' wildlfile wildlfile2 path) ->
     parseVersion file = Some v -> PyFloat.gtb v PyFloat.zero = false) ->
  findVersioned' wildlfile wildlfile2 libraryPaths = (PyFloat.zero, None).
Proof.
  unfold findVersioned.
  induction libraryPaths as [|path paths IH]; intros H; simpl; auto.
  rewrite considerFiles_unselected.
  - apply IH. intros p f v Hp. apply H. now right.
  - intros f v. apply H. now left.
Qed.

(** Both patterns of the second loop carry the first extension. *)
Lemma versionedFiles_same_pattern (wildlfile path file : string) :
  In file (versionedFiles' wildlfile (Some wildlfile) path) <->
  In file (glob (pathConcat path wildlfile)).
Proof.
  unfold versionedFiles. rewrite in_app_iff.
  split; [intros [H|H]; exact H | intros H; left; exact H].
Qed.

Lemma findLibrary_unfold (_lfile : string) (type : Z)
    (libraryPaths : list string) :
  let ext := fst (extensions' type) in
  let lfile := "lib" ++ _lfile ++ ext in
  let lfile2 := option_map (fun e => "lib" ++ _lfile ++ e)
                  (snd (extensions' type)) in
  let wildlfile := "lib" ++ _lfile ++ "-*" ++ ext in
  findLibrary' _lfile type libraryPaths =
  match findExact' lfile lfile2 libraryPaths with
  | Some found => found
  | None =>
      match snd (findVersioned' wildlfile (Some wildlfile) libraryPaths) with
      | Some bestFile => bestFile
      | None => lfile
      end
  end.
Proof.
  unfold findLibrary. destruct (extensions' type) as [ext [ext2|]]; reflexivity.
Qed.

Lemma no_exact_match (_lfile : string) (type : Z)
    (libraryPaths : list string) :
  (forall path e,
     In path libraryPaths ->
     e = fst (extensions' type) \/ Some e = snd (extensions' type) ->
     path_exists (pathConcat path ("lib" ++ _lfile ++ e)) = false) ->
  findExact' ("lib" ++ _lfile ++ fst (extensions' type))
    (option_map (fun e => "lib" ++ _lfile ++ e) (snd (extensions' type)))
    libraryPaths = None.
Proof.
  intros H. apply findExact_none. intros path Hp. split.
  - apply H; auto.
  - intros l2. destruct (snd (extensions' type)) as [e2|] eqn:He2;
      [|discriminate].
    intros [= <-]. apply H; auto.
Qed.

(** Where [glob.glob] returns: no exact name and no version that parses
    give the plain name. *)
Lemma findLibrary_plain_name (_lfile : string) (type : Z)
    (libraryPaths : list string) :
  (forall path e,
     In path libraryPaths ->
     e = fst (extensions' type) \/ Some e = snd (extensions' type) ->
     path_exists (pathConcat path ("lib" ++ _lfile ++ e)) = false) ->
  (forall path e file,
     In path libraryPaths ->
     e = fst (extensions' type) \/ Some e = snd (extensions' type) ->
     In file (glob (pathConcat path ("lib" ++ _lfile ++ "-*" ++ e))) ->
     parseVersion file = None) ->
  findLibrary' _lfile type libraryPaths
  = "lib" ++ _lfile ++ fst (extensions' type)
  /\ prefix "/" (findLibrary' _lfile type libraryPaths) = false.
Proof.
  intros Hexact Hvers.
  assert (Heq : findLibrary' _lfile type libraryPaths
                = "lib" ++ _lfile ++ fst (extensions' type)).
  { rewrite findLibrary_unfold. cbv zeta.
    rewrite (no_exact_match _ _ _ Hexact).
    rewrite findVersioned_unselected; [reflexivity|].
    intros path file v Hp Hf Hv. apply versionedFiles_same_pattern in Hf.
    rewrite (Hvers path _ file Hp (or_introl eq_refl) Hf) in Hv.
    discriminate. }
  split; [exact Heq|]. rewrite Heq. reflexivity.
Qed.

(** C10. Where no exact name exists, [findLibrary] returns the plain name
    or a versioned file whose version, as the code parses it, is strictly
    above zero; and where the version of every versioned file is zero,
    below zero or not a number, it returns the plain name although such
    files exist. *)
Theorem findLibrary_version_above_zero (_lfile : string) (type : Z)
    (libraryPaths : list string) :
  (forall path e,
     In path libraryPaths ->
     e = fst (extensions' type) \/ Some e = snd (extensions' type) ->
     path_exists (pathConcat path ("lib" ++ _lfile ++ e)) = false) ->
  let lfile := "lib" ++ _lfile ++ fst (extensions' type) in
  let wildlfile := "lib" ++ _lfile ++ "-*" ++ fst (extensions' type) in
  let found := findLibrary' _lfile type libraryPaths in
  (found = lfile
   \/ exists path v,
        In path libraryPaths
        /\ In found (glob (pathConcat path wildlfile))
        /\ parseVersion found = Some v
        /\ PyFloat.gtb v PyFloat.zero = true)
  /\ ((forall path file v,
         In path libraryPaths ->
         In file (glob (pathConcat path wildlfile)) ->
         parseVersion file = Some v ->
         PyFloat.gtb v PyFloat.zero = false) ->
      found = lfile).
Proof.
  intros Hexact. cbv zeta.
  rewrite findLibrary_unfold. cbv zeta.
  rewrite (no_exact_match _ _ _ Hexact).
  set (wildlfile := "lib" ++ _lfile ++ "-*" ++ fst (extensions' type)).
  split.
  - pose proof (findVersioned_selected wildlfile (Some wildlfile)
                  libraryPaths) as Hsel.
    destruct Hsel as [->|(v & f & -> & Hin & Hv & Hpos)]; [now left|].
    right. simpl. apply in_flat_map in Hin. destruct Hin as (path & Hp & Hf).
    apply versionedFiles_same_pattern in Hf. now exists path, v.
  - intros Hall. rewrite findVersioned_unselected; [reflexivity|].
    intros path file v Hp Hf. apply versionedFiles_same_pattern in Hf.
    now apply (Hall path).
Qed.

End LocatorFacts.

(** ** Where [glob.glob] raises *)

Section LocatorRaisingFacts.
Variable sysname : string.
Variable pathConcat : string -> string -> string.
Variable path_exists : string -> bool.
Variable glob : string -> option (list string).

(** What [glob.glob] returns where it returns. *)
Local Abbreviation globbed :=
  (fun pattern : string =>
     match glob pattern with Some files => files | None => [] end).

Lemma findVersionedE_returns (wildlfile : string)
    (libraryPaths : list string) :
  (forall path, In path libraryPaths ->
                glob (pathConcat path wildlfile) <> None) ->
  forall best,
    findVersionedE pathConcat glob wildlfile (Some wildlfile) libraryPaths
      best
    = Some (fold_left
              (fun best path =>
                 fold_left considerFile
                   (versionedFiles pathConcat globbed wildlfile
                      (Some wildlfile) path) best)
              libraryPaths best).
Proof.
  induction libraryPaths as [|path paths IH]; intros Hglob best;
    cbn [findVersionedE fold_left]; [reflexivity|].
  unfold versionedFilesE, versionedFiles.
  destruct (glob (pathConcat path wildlfile)) as [files|] eqn:Hfiles.
  - apply IH. intros p Hp. apply Hglob. now right.
  - exfalso. now apply (Hglob path (or_introl eq_refl)).
Qed.

Lemma findVersionedE_raises (wildlfile : string)
    (libraryPaths : list string) :
  (exists path, In path libraryPaths
                /\ glob (pathConcat path wildlfile) = None) ->
  forall best,
    findVersionedE pathConcat glob wildlfile (Some wildlfile) libraryPaths
      best = None.
Proof.
  induction libraryPaths as [|path paths IH]; intros (p & Hp & Hnone) best;
    [destruct Hp|].
  cbn [findVersionedE]. unfold versionedFilesE.
  destruct (glob (pathConcat path wildlfile)) as [files|] eqn:Hfiles;
    [|reflexivity].
  apply IH. destruct Hp as [->|Hp]; [congruence|]. now exists p.
Qed.

(** Where [glob.glob] raises for no search directory, [findLibrary]
    returns what it returns in [Locator]. *)
Lemma findLibraryE_returns (_lfile : string) (type : Z)
    (libraryPaths : list string) :
  (forall path,
     In path libraryPaths ->
     glob (pathConcat path
             ("lib" ++ _lfile ++ "-*" ++ fst (extensions sysname type)))
     <> None) ->
  findLibraryE sysname pathConcat path_exists glob _lfile type libraryPaths
  = Some (findLibrary sysname pathConcat path_exists globbed _lfile type
            libraryPaths).
Proof.
  unfold findLibraryE, findLibrary.
  destruct (extensions sysname type) as [ext ext2]. cbn [fst].
  intros Hglob.
  destruct (findExact pathConcat path_exists _ _ libraryPaths);
    [reflexivity|].
  rewrite (findVersionedE_returns _ _ Hglob). unfold findVersioned.
  destruct (fold_left _ libraryPaths (PyFloat.zero, None)) as [v [f|]];
    reflexivity.
Qed.

(** Where no exact name exists and [glob.glob] raises for a search
    directory, the exception leaves [findLibrary]. *)
Lemma findLibraryE_raises (_lfile : string) (type : Z)
    (libraryPaths : list string) :
  (forall path e,
     In path libraryPaths ->
     e = fst (extensions sysname type)
     \/ Some e = snd (extensions sysname type) ->
     path_exists (pathConcat path ("lib" ++ _lfile ++ e)) = false) ->
  (exists path,
     In path libraryPaths
     /\ glob (pathConcat path
                ("lib" ++ _lfile ++ "-*" ++ fst (extensions sysname type)))
        = None) ->
  findLibraryE sysname pathConcat path_exists glob _lfile type libraryPaths
  = None.
Proof.
  intros Hexact Hraise.
  pose proof (no_exact_match sysname pathConcat path_exists _lfile type
                libraryPaths Hexact) as Hnone.
  unfold findLibraryE.
  destruct (extensions sysname type) as [ext ext2]. cbn [fst snd] in *.
  replace (match ext2 with
           | Some ext2' => Some ("lib" ++ _lfile ++ ext2')
           | None => None
           end)
    with (option_map (fun e => "lib" ++ _lfile ++ e) ext2)
    by (destruct ext2; reflexivity).
  rewrite Hnone. now rewrite (findVersionedE_raises _ _ Hraise).
Qed.

(** C8, as amended. Where [glob.glob] raises for none of the search
    directories, no search directory holds the exact name with either
    extension and no versioned file in any of them has a version that
    parses, [findLibrary] returns [lib<name>] with the first extension, a
    name that is not an absolute path; the [ValueError] of [float] is
    caught. *)
Theorem findLibrary_not_found (_lfile : string) (type : Z)
    (libraryPaths : list string) :
  (forall path e,
     In path libraryPaths ->
     e = fst (extensions sysname type)
     \/ Some e = snd (extensions sysname type) ->
     path_exists (pathConcat path ("lib" ++ _lfile ++ e)) = false) ->
  (forall path,
     In path libraryPaths ->
     glob (pathConcat path
             ("lib" ++ _lfile ++ "-*" ++ fst (extensions sysname type)))
     <> None) ->
  (forall path e file files,
     In path libraryPaths ->
     e = fst (extensions sysname type)
     \/ Some e = snd (extensions sysname type) ->
     glob (pathConcat path ("lib" ++ _lfile ++ "-*" ++ e)) = Some files ->
     In file files ->
     parseVersion file = None) ->
  findLibraryE sysname pathConcat path_exists glob _lfile type libraryPaths
  = Some ("lib" ++ _lfile ++ fst (extensions sysname type))
  /\ prefix "/" ("lib" ++ _lfile ++ fst (extensions sysname type)) = false.
Proof.
  intros Hexact Hglob Hvers. split; [|reflexivity].
  rewrite (findLibraryE_returns _ _ _ Hglob). f_equal.
  apply (findLibrary_plain_name sysname pathConcat path_exists globbed);
    [exact Hexact|].
  intros path e file Hp He. cbv beta.
  destruct (glob (pathConcat path ("lib" ++ _lfile ++ "-*" ++ e)))
    as [files|] eqn:Hfiles; [|intros []].
  intros Hin. exact (Hvers path e file files Hp He Hfiles Hin).
Qed.

End LocatorRaisingFacts.

(** C8 as it stands fails: with no exact name and no versioned file
    anywhere, a search directory whose path holds a NUL makes [glob.glob]
    raise [ValueError], and [findLibrary] raises instead of returning the
    plain name [libfoo.so]. *)
Lemma findLibrary_not_found_raises :
  (forall e,
     FileSystem.path_exists []
       (FileSystem.pathConcat nulDirectory ("lib" ++ "foo" ++ e)) = false)
  /\ (forall pattern, FileSystem.glob [] pattern = [])
  /\ findLibraryE "Linux" FileSystem.pathConcat (FileSystem.path_exists [])
       (FileSystem.glob_or_raise []) "foo" DYNAMIC [nulDirectory]
     = None
  /\ findLibraryE "Linux" FileSystem.pathConcat (FileSystem.path_exists [])
       (FileSystem.glob_or_raise []) "foo" DYNAMIC [nulDirectory]
     <> Some "libfoo.so".
Proof.
  split; [reflexivity|]. split; [reflexivity|].
  assert (H : findLibraryE "Linux" FileSystem.pathConcat
                (FileSystem.path_exists []) (FileSystem.glob_or_raise [])
                "foo" DYNAMIC [nulDirectory] = None)
    by (vm_compute; reflexivity).
  split; [exact H|]. rewrite H. discriminate.
Qed.

(** X14. The second loop asks [glob] for nothing but the pattern with the
    first extension: two file systems that answer alike for it and for the
    exact names give the same result. *)
Lemma findLibrary_glob_first_extension (sysname : string)
    (pathConcat : string -> string -> string) (path_exists : string -> bool)
    (glob1 glob2 : string -> list string)
    (_lfile : string) (type : Z) (libraryPaths : list string) :
  (forall path,
     In path libraryPaths ->
     glob1 (pathConcat path
              ("lib" ++ _lfile ++ "-*" ++ fst (extensions sysname type)))
     = glob2 (pathConcat path
                ("lib" ++ _lfile ++ "-*" ++ fst (extensions sysname type)))) ->
  findLibrary sysname pathConcat path_exists glob1 _lfile type libraryPaths
  = findLibrary sysname pathConcat path_exists glob2 _lfile type libraryPaths.
Proof.
  intros Hglob.
  rewrite !findLibrary_unfold. cbv zeta.
  destruct (findExact pathConcat path_exists _ _ libraryPaths);
    [reflexivity|].
  do 2 f_equal. unfold findVersioned, versionedFiles.
  generalize (PyFloat.zero, @None string).
  induction libraryPaths as [|path paths IH]; intros best;
    cbn [fold_left]; auto.
  rewrite <- (Hglob path (or_introl eq_refl)).
  apply IH. intros p Hp. apply Hglob. now right.
Qed.

(** ** The locator on concrete directories *)

(** C2. On Darwin, with [/usr/lib] holding [libfoo-2.3.dylib] and
    [libfoo-1.0.dylib] and nothing else, [findLibrary] does not return the
    path of [libfoo-2.3.dylib] but the plain name [libfoo.dylib]: both files
    are found by the pattern, but the version is cut three characters
    before the end of the name, which leaves [2.3.dy] and [1.0.dy], and
    [float] rejects both. With the three-character extension [.so] the
    same directory layout gives the path of the highest version. *)
Theorem findLibrary_dylib_versions_unparsed :
  let fs := ["/usr/lib/libfoo-2.3.dylib"; "/usr/lib/libfoo-1.0.dylib"] in
  let fs_so := ["/usr/lib/libfoo-2.3.so"; "/usr/lib/libfoo-1.0.so"] in
  FileSystem.glob fs (FileSystem.pathConcat "/usr/lib" "libfoo-*.dylib") = fs
  /\ PyStr.slice "/usr/lib/libfoo-2.3.dylib"
       (PyStr.rfind "/usr/lib/libfoo-2.3.dylib" "-" 0 (-2) + 1) (-3)
     = "2.3.dy"
  /\ parseVersion "/usr/lib/libfoo-2.3.dylib" = None
  /\ parseVersion "/usr/lib/libfoo-1.0.dylib" = None
  /\ findLibrary "Darwin" FileSystem.pathConcat (FileSystem.path_exists fs)
       (FileSystem.glob fs) "foo" DYNAMIC ["/usr/lib"]
     = "libfoo.dylib"
  /\ findLibrary "Linux" FileSystem.pathConcat (FileSystem.path_exists fs_so)
       (FileSystem.glob fs_so) "foo" DYNAMIC ["/usr/lib"]
     = "/usr/lib/libfoo-2.3.so".
Proof. cbv zeta. repeat split; vm_compute; reflexivity. Qed.

(** C3. On Darwin, where the second extension is [.so], a directory that
    holds [libfoo-2.3.so] alone yields the plain name [libfoo.dylib]: the
    second loop collects no file there, although the version of the file
    parses (to 2.3, which is above zero), because its second pattern is
    built from the first extension again. The first loop does look for the
    name with the second extension: it finds [libfoo.so]. *)
Theorem findLibrary_versioned_fallback_not_probed :
  let fs := ["/usr/lib/libfoo-2.3.so"] in
  let fs_exact := ["/usr/lib/libfoo.so"] in
  extensions "Darwin" DYNAMIC = (".dylib", Some ".so")
  /\ versionedFiles FileSystem.pathConcat (FileSystem.glob fs)
       "libfoo-*.dylib" (Some "libfoo-*.dylib") "/usr/lib" = []
  /\ FileSystem.glob fs (FileSystem.pathConcat "/usr/lib" "libfoo-*.so") = fs
  /\ option_map (fun v => PyFloat.gtb v PyFloat.zero)
       (parseVersion "/usr/lib/libfoo-2.3.so") = Some true
  /\ findLibrary "Darwin" FileSystem.pathConcat (FileSystem.path_exists fs)
       (FileSystem.glob fs) "foo" DYNAMIC ["/usr/lib"]
     = "libfoo.dylib"
  /\ findLibrary "Darwin" FileSystem.pathConcat
       (FileSystem.path_exists fs_exact) (FileSystem.glob fs_exact)
       "foo" DYNAMIC ["/usr/lib"]
     = "/usr/lib/libfoo.so".
Proof. cbv zeta. repeat split; vm_compute; reflexivity. Qed.

(** ** No version is read off a name that ends in [.dylib] *)

Lemma rfind_scan_spec (c : ascii) (s : string) :
  forall i lo hi acc,
    let r := PyStr.rfind_scan s c i lo hi acc in
    r = acc
    \/ (i <= r < i + PyStr.len s /\ r < hi
        /\ String.get (Z.to_nat (r - i)) s = Some c).
Proof.
  unfold PyStr.len.
  induction s as [|h t IH]; intros i lo hi acc; simpl; [now left|].
  specialize (IH (i + 1) lo hi
                (if (lo <=? i) && (i <? hi) && Ascii.eqb h c then i
                 else acc)).
  simpl in IH. destruct IH as [IH|(Hr & Hhi & Hget)].
  - rewrite IH.
    destruct ((lo <=? i) && (i <? hi) && Ascii.eqb h c) eqn:Hc; [|now left].
    right. apply andb_prop in Hc. destruct Hc as [Hc Hh].
    apply andb_prop in Hc. destruct Hc as [_ Hc].
    apply Z.ltb_lt in Hc. apply Ascii.eqb_eq in Hh. subst h.
    rewrite Z.sub_diag. simpl. repeat split; auto; lia.
  - right. repeat split; try lia.
    replace (Z.to_nat (PyStr.rfind_scan t c (i + 1) lo hi
                         (if (lo <=? i) && (i <? hi) && Ascii.eqb h c
                          then i else acc) - i))
      with (S (Z.to_nat (PyStr.rfind_scan t c (i + 1) lo hi
                           (if (lo <=? i) && (i <? hi) && Ascii.eqb h c
                            then i else acc) - (i + 1)))) by lia.
    exact Hget.
Qed.

Lemma get_app_right (s t : string) (k : nat) :
  String.get (String.length s + k) (s ++ t) = String.get k t.
Proof. induction s as [|h s IH]; simpl; auto. Qed.

Lemma length_append (s t : string) :
  String.length (s ++ t) = (String.length s + String.length t)%nat.
Proof. induction s as [|h s IH]; simpl; auto. Qed.

Lemma substring_app_suffix (s t : string) (k : nat) :
  forall a, (a <= String.length s)%nat ->
    substring a (String.length s - a + k) (s ++ t)
    = substring a (String.length s - a) s ++ substring 0 k t.
Proof.
  induction s as [|h s IH]; intros a Ha; simpl in *.
  - assert (a = 0)%nat by lia. subst a. simpl.
    destruct (substring 0 k t); reflexivity.
  - destruct a as [|a]; simpl.
    + f_equal. specialize (IH 0%nat). rewrite Nat.sub_0_r in IH.
      apply IH. lia.
    + apply IH. lia.
Qed.

(** The text that the code takes for the version of a name that ends in
    [.dylib] ends in [.dy]. *)
Lemma version_text_dylib (s : string) :
  let file := s ++ ".dylib" in
  let i := PyStr.rfind file "-" 0 (-2) in
  0 <= i -> exists u, PyStr.slice file (i + 1) (-3) = u ++ ".dy".
Proof.
  cbv zeta. intros Hi.
  set (file := s ++ ".dylib") in *.
  assert (Hlen : PyStr.len file = PyStr.len s + 6).
  { unfold PyStr.len, file. rewrite length_append. simpl. lia. }
  assert (Hs : 0 <= PyStr.len s) by (unfold PyStr.len; lia).
  unfold PyStr.rfind in *. rewrite Hlen in *.
  assert (Hlo : PyStr.clamp (PyStr.len s + 6) 0 = 0)
    by (unfold PyStr.clamp; simpl; lia).
  assert (Hhi : PyStr.clamp (PyStr.len s + 6) (-2) = PyStr.len s + 4)
    by (unfold PyStr.clamp; simpl; lia).
  rewrite Hlo, Hhi in *.
  set (i := PyStr.rfind_scan file "-" 0 0 (PyStr.len s + 4) (-1)) in *.
  destruct (rfind_scan_spec "-" file 0 0 (PyStr.len s + 4) (-1))
    as [H|(Hr & Hlt & Hget)]; fold i in H || fold i in Hr, Hlt, Hget;
    [lia|].
  rewrite Z.sub_0_r in Hget.
  assert (Hin : i < PyStr.len s).
  { destruct (Z.lt_ge_cases i (PyStr.len s)) as [|Hge]; auto. exfalso.
    unfold PyStr.len in *.
    replace (Z.to_nat i)
      with (String.length s + (Z.to_nat i - String.length s))%nat in Hget
      by lia.
    unfold file in Hget. rewrite get_app_right in Hget.
    assert (Hk : (Z.to_nat i - String.length s < 4)%nat) by lia.
    destruct (Z.to_nat i - String.length s)%nat as [|[|[|[|k]]]];
      try discriminate Hget. lia. }
  unfold PyStr.slice. rewrite Hlen.
  assert (Ha : PyStr.clamp (PyStr.len s + 6) (i + 1) = i + 1).
  { unfold PyStr.clamp. destruct (Z.ltb_spec (i + 1) 0); lia. }
  assert (Hb : PyStr.clamp (PyStr.len s + 6) (-3) = PyStr.len s + 3)
    by (unfold PyStr.clamp; simpl; lia).
  rewrite Ha, Hb. unfold PyStr.len in *.
  replace (Z.to_nat (Z.of_nat (String.length s) + 3 - (i + 1)))
    with (String.length s - Z.to_nat (i + 1) + 3)%nat by lia.
  unfold file. rewrite substring_app_suffix by lia.
  eexists. reflexivity.
Qed.

(** *** [float] rejects every text that ends in [dy] *)

Lemma list_ascii_of_string_app (s t : string) :
  list_ascii_of_string (s ++ t)
  = (list_ascii_of_string s ++ list_ascii_of_string t)%list.
Proof. induction s as [|h s IH]; simpl; congruence. Qed.

Local Abbreviation dy := ["d"%char; "y"%char].

Lemma lstrip_dy (l : list ascii) :
  exists l', PyFloat.lstrip (l ++ dy)%list
             = (l' ++ dy)%list.
Proof.
  induction l as [|c l IH]; simpl.
  - now exists [].
  - destruct (PyFloat.is_space c); auto. now exists (c :: l).
Qed.

Lemma strip_dy (l : list ascii) :
  exists l', PyFloat.strip (l ++ dy)%list
             = (l' ++ dy)%list.
Proof.
  unfold PyFloat.strip. destruct (lstrip_dy l) as [l' ->].
  exists l'. rewrite rev_app_distr. simpl.
  now rewrite rev_involutive, <- app_assoc.
Qed.

Lemma sign_dy (l : list ascii) :
  exists l', snd (PyFloat.sign (l ++ dy)%list)
             = (l' ++ dy)%list.
Proof.
  destruct l as [|c l]; [now exists []|].
  simpl. unfold PyFloat.sign.
  destruct (Ascii.eqb_spec c "-") as [->|Hm]; [now exists l|].
  destruct (Ascii.eqb_spec c "+") as [->|Hp]; [now exists l|].
  exists (c :: l).
  destruct c as [[] [] [] [] [] [] [] []]; try reflexivity; congruence.
Qed.

Lemma inf_or_nan_dy (l : list ascii) :
  PyFloat.inf_or_nan (l ++ dy)%list = None.
Proof.
  unfold PyFloat.inf_or_nan. rewrite map_app.
  change (map PyFloat.lower dy) with dy.
  assert (Hne : forall k : string,
            nth 1 (rev (list_ascii_of_string k)) "d"%char <> "d"%char ->
            String.eqb
              (string_of_list_ascii (map PyFloat.lower l ++ dy)%list) k
            = false).
  { intros k Hk. apply String.eqb_neq. intros H.
    apply (f_equal list_ascii_of_string) in H.
    rewrite list_ascii_of_string_of_list_ascii in H.
    apply Hk. rewrite <- H, rev_app_distr. reflexivity. }
  rewrite (Hne "inf"), (Hne "infinity"), (Hne "nan");
    simpl; congruence.
Qed.

Lemma drop_underscores_In (c : ascii) (l : list ascii) :
  forall prev l',
    PyFloat.drop_underscores prev l = Some l' ->
    In c l -> c <> "_"%char -> In c l'.
Proof.
  induction l as [|h l IH]; intros prev l' Hd Hin Hc; [destruct Hin|].
  simpl in Hd.
  assert (Hkeep : forall r,
            option_map (cons h) (PyFloat.drop_underscores (Some h) l) = Some r ->
            h <> "_"%char -> In c r).
  { intros r Hr Hh.
    destruct (PyFloat.drop_underscores (Some h) l) as [l0|] eqn:Hl0;
      [|discriminate].
    injection Hr as <-. destruct Hin as [->|Hin]; [now left|].
    right. now apply (IH _ _ Hl0). }
  destruct (Ascii.eqb_spec h "_") as [->|Hh].
  - destruct Hin as [Heq|Hin]; [congruence|].
    destruct prev as [p|]; [|discriminate].
    destruct (PyFloat.is_digit p); [|discriminate]. now apply (IH _ _ Hd).
  - destruct prev as [p|]; [|now apply Hkeep].
    destruct (Ascii.eqb_spec p "_") as [->|Hp].
    + destruct (PyFloat.is_digit h); [now apply Hkeep | discriminate].
    + apply Hkeep; auto.
      destruct p as [[] [] [] [] [] [] [] []]; try exact Hd; congruence.
Qed.

Lemma sign_In (c : ascii) (l : list ascii) :
  In c l -> c <> "-"%char -> c <> "+"%char -> In c (snd (PyFloat.sign l)).
Proof.
  intros Hin Hm Hp. destruct l as [|h l]; [destruct Hin|].
  unfold PyFloat.sign.
  destruct (Ascii.eqb_spec h "-") as [->|Hhm].
  { destruct Hin; [congruence | assumption]. }
  destruct (Ascii.eqb_spec h "+") as [->|Hhp].
  { destruct Hin; [congruence | assumption]. }
  destruct h as [[] [] [] [] [] [] [] []]; try exact Hin; congruence.
Qed.

(** What is not a digit is still there behind the leading digits. *)
Lemma digits_In (c : ascii) (l : list ascii) :
  forall acc cnt v n rest,
    PyFloat.digits l acc cnt = (v, n, rest) ->
    In c l -> PyFloat.is_digit c = false -> In c rest.
Proof.
  induction l as [|h l IH]; intros acc cnt v n rest Hd Hin Hc;
    [destruct Hin|].
  simpl in Hd. destruct (PyFloat.is_digit h) eqn:Hh.
  - destruct Hin as [->|Hin]; [congruence|]. now apply (IH _ _ _ _ _ Hd).
  - now injection Hd as _ _ <-.
Qed.

Lemma exponent_y (l : list ascii) :
  In "y"%char l -> PyFloat.exponent l = None.
Proof.
  intros Hin. destruct l as [|c l]; [destruct Hin|].
  unfold PyFloat.exponent.
  destruct (Ascii.eqb (PyFloat.lower c) "e") eqn:He; [|reflexivity].
  destruct Hin as [->|Hin]; [discriminate He|].
  destruct (PyFloat.sign l) as [negative l''] eqn:Hs.
  assert (Hin' : In "y"%char l'').
  { change l'' with (snd (negative, l'')). rewrite <- Hs.
    apply sign_In; auto; discriminate. }
  destruct (PyFloat.digits l'' 0 0) as [[v cnt] rest] eqn:Hd.
  pose proof (digits_In _ _ _ _ _ _ _ Hd Hin' eq_refl) as Hrest.
  destruct rest; [destruct Hrest | reflexivity].
Qed.

Lemma decimal_y (l : list ascii) :
  In "y"%char l -> PyFloat.decimal l = None.
Proof.
  intros Hin. unfold PyFloat.decimal.
  destruct (PyFloat.digits l 0 0) as [[ip n1] r1] eqn:Hd1.
  pose proof (digits_In _ _ _ _ _ _ _ Hd1 Hin eq_refl) as Hr1.
  assert (Hr2 : forall m n2 r2,
            match r1 with
            | "."%char :: r => PyFloat.digits r ip 0
            | _ => (ip, 0, r1)
            end = (m, n2, r2) -> In "y"%char r2).
  { intros m n2 r2 H.
    destruct r1 as [|c r]; [destruct Hr1|].
    destruct (Ascii.eqb_spec c ".") as [->|Hc].
    - destruct Hr1 as [Hr1|Hr1]; [discriminate Hr1|].
      now apply (digits_In _ _ _ _ _ _ _ H).
    - assert (H' : (ip, 0, c :: r) = (m, n2, r2)).
      { destruct c as [[] [] [] [] [] [] [] []]; try exact H; congruence. }
      now injection H' as _ _ <-. }
  destruct (match r1 with
            | "."%char :: r => PyFloat.digits r ip 0
            | _ => (ip, 0, r1)
            end) as [[m n2] r2].
  specialize (Hr2 m n2 r2 eq_refl).
  destruct (n1 + n2 =? 0); [reflexivity|].
  now rewrite (exponent_y _ Hr2).
Qed.

Lemma float_rejects_dy (u : string) : PyFloat.float (u ++ ".dy") = None.
Proof.
  unfold PyFloat.float.
  rewrite list_ascii_of_string_app.
  change (list_ascii_of_string ".dy") with (["."%char] ++ dy)%list.
  rewrite app_assoc.
  destruct (strip_dy (list_ascii_of_string u ++ ["."%char])%list) as [l ->].
  destruct (PyFloat.sign (l ++ dy)%list) as [negative body] eqn:Hs.
  destruct (sign_dy l) as [l' Hbody]. rewrite Hs in Hbody. simpl in Hbody.
  subst body. rewrite inf_or_nan_dy.
  destruct (PyFloat.drop_underscores None (l ++ dy)%list)
    as [l0|] eqn:Hd; [|reflexivity].
  rewrite decimal_y; [reflexivity|].
  apply sign_In; try discriminate.
  apply (drop_underscores_In _ _ _ _ Hd); [|discriminate].
  apply in_or_app. right. simpl. auto.
Qed.

(** On a name that ends in [.dylib] the code reads no version at all. *)
Lemma parseVersion_dylib (s : string) : parseVersion (s ++ ".dylib") = None.
Proof.
  unfold parseVersion.
  destruct (Z.leb_spec 0 (PyStr.rfind (s ++ ".dylib") "-" 0 (-2)))
    as [Hi|]; [|reflexivity].
  destruct (version_text_dylib s Hi) as [u ->]. apply float_rejects_dy.
Qed.

(** X15. So on Darwin, where the pattern ends in [.dylib], the second loop
    never selects a file of a dynamic library: without an exact name the
    result is the plain name, whatever versions the directories hold. *)
Lemma findLibrary_darwin_dynamic (pathConcat : string -> string -> string)
    (path_exists : string -> bool) (glob : string -> list string)
    (_lfile : string) (libraryPaths : list string) :
  (forall path e,
     In path libraryPaths -> e = ".dylib" \/ e = ".so" ->
     path_exists (pathConcat path ("lib" ++ _lfile ++ e)) = false) ->
  (forall path file,
     In path libraryPaths ->
     In file (glob (pathConcat path ("lib" ++ _lfile ++ "-*" ++ ".dylib"))) ->
     exists s, file = s ++ ".dylib") ->
  findLibrary "Darwin" pathConcat path_exists glob _lfile DYNAMIC libraryPaths
  = "lib" ++ _lfile ++ ".dylib".
Proof.
  intros Hexact Hglob.
  rewrite findLibrary_unfold. cbv zeta.
  change (extensions "Darwin" DYNAMIC) with (".dylib", Some ".so").
  cbn [fst snd option_map].
  rewrite findExact_none.
  - rewrite findVersioned_unselected; [reflexivity|].
    intros path file v Hp Hf Hv. apply versionedFiles_same_pattern in Hf.
    destruct (Hglob path file Hp Hf) as [s ->].
    rewrite parseVersion_dylib in Hv. discriminate.
  - intros path Hp. split; [now apply Hexact; auto|].
    intros l2 [= <-]. apply Hexact; auto.
Qed.

(** * Further properties of [library.py] *)

(** ** The registry and its two indices *)

Lemma contains_set {V : Type} (d : PyDict.t V) (k k' : string) (v : V) :
  PyDict.contains (PyDict.set d k v) k'
  = (String.eqb k k' || PyDict.contains d k')%bool.
Proof.
  unfold PyDict.contains. rewrite get_set.
  destruct (String.eqb k k'); reflexivity.
Qed.

Lemma keys_set_new {V : Type} (d : PyDict.t V) (k : string) (v : V) :
  PyDict.contains d k = false ->
  PyDict.keys (PyDict.set d k v) = (PyDict.keys d ++ [k])%list.
Proof.
  unfold PyDict.contains, PyDict.keys.
  induction d as [|[k0 v0] d IH]; simpl; auto.
  destruct (String.eqb k0 k) eqn:E; [discriminate|].
  intros H. simpl. now rewrite IH.
Qed.

Lemma keys_set_old {V : Type} (d : PyDict.t V) (k : string) (v : V) :
  PyDict.contains d k = true ->
  PyDict.keys (PyDict.set d k v) = PyDict.keys d.
Proof.
  unfold PyDict.contains, PyDict.keys.
  induction d as [|[k0 v0] d IH]; simpl; [discriminate|].
  destruct (String.eqb k0 k) eqn:E; simpl; auto.
  intros H. now rewrite IH.
Qed.

Lemma entries_trigger_append (table : PyDict.t (list string))
    (key libname k : string) :
  entries (trigger_append table key libname) k
  = if String.eqb key k then (entries table k ++ [libname])%list
    else entries table k.
Proof.
  unfold entries, trigger_append.
  destruct (String.eqb_spec key k) as [->|Hne].
  - destruct (PyDict.get table k); now rewrite get_set_same.
  - destruct (PyDict.get table key); now rewrite get_set_other.
Qed.

Lemma entries_triggers (libname : string) (keys : list string) :
  forall table k,
    entries
      (fold_left (fun table key => trigger_append table key libname)
         keys table) k
    = (entries table k
       ++ repeat libname (count_occ string_dec keys k))%list.
Proof.
  induction keys as [|key keys IH]; intros table k; simpl.
  - now rewrite app_nil_r.
  - rewrite IH, entries_trigger_append.
    destruct (string_dec key k) as [->|Hne].
    + rewrite String.eqb_refl, <- app_assoc. reflexivity.
    + now rewrite (proj2 (String.eqb_neq key k) Hne).
Qed.

Lemma keys_trigger_append (table : PyDict.t (list string))
    (key libname : string) :
  PyDict.keys (trigger_append table key libname)
  = if PyDict.contains table key then PyDict.keys table
    else (PyDict.keys table ++ [key])%list.
Proof.
  unfold trigger_append.
  destruct (PyDict.contains table key) eqn:Hc.
  - unfold PyDict.contains in Hc.
    destruct (PyDict.get table key) eqn:Hg; [|discriminate].
    apply keys_set_old. unfold PyDict.contains. now rewrite Hg.
  - unfold PyDict.contains in Hc.
    destruct (PyDict.get table key) eqn:Hg; [discriminate|].
    apply keys_set_new. unfold PyDict.contains. now rewrite Hg.
Qed.

Section RegistryFacts.
Variables (verbosity TRACE : Z).

Local Abbreviation define := (defineLibrary verbosity TRACE).
Local Abbreviation defineAll := (defineLibraries verbosity TRACE).

Lemma defineLibrary_returned (lib : Library) (w w' : World) :
  define lib w = (w', Returned) ->
  PyDict.contains (libraryTable (registry w)) (name lib) = false
  /\ registry w'
     = mkRegistry
         (PyDict.set (libraryTable (registry w)) (name lib) lib)
         (fold_left (fun table header => trigger_append table header (name lib))
            (headerList lib) (headerToLibraryTable (registry w)))
         (fold_left (fun table symbol => trigger_append table symbol (name lib))
            (symbolList lib) (symbolToLibraryTable (registry w))).
Proof.
  unfold defineLibrary.
  destruct (PyDict.contains (libraryTable (registry w)) (name lib));
    [discriminate|].
  intros [= <-]. auto.
Qed.

(** X1. A registration that returns has stored the record under its name,
    as the last key of the library table, and left every other name as it
    was; a later lookup of the name gives the record back. *)
Theorem defineLibrary_lookup (lib : Library) (w w' : World) :
  define lib w = (w', Returned) ->
  PyDict.get (libraryTable (registry w')) (name lib) = Some lib
  /\ (forall other,
        other <> name lib ->
        PyDict.get (libraryTable (registry w')) other
        = PyDict.get (libraryTable (registry w)) other)
  /\ PyDict.keys (libraryTable (registry w'))
     = (PyDict.keys (libraryTable (registry w)) ++ [name lib])%list.
Proof.
  intros H. destruct (defineLibrary_returned _ _ _ H) as [Hnew ->]. simpl.
  split; [apply get_set_same|]. split.
  - intros other Hne. apply get_set_other. congruence.
  - now apply keys_set_new.
Qed.

(** X2. A registration that returns appends the name of the library to
    the list of every header and of every symbol of the library, once for
    each time the trigger stands in the library's list, and changes the
    list of no other header or symbol. *)
Theorem defineLibrary_triggers (lib : Library) (w w' : World) :
  define lib w = (w', Returned) ->
  forall trigger,
    entries (headerToLibraryTable (registry w')) trigger
    = (entries (headerToLibraryTable (registry w)) trigger
       ++ repeat (name lib)
            (count_occ string_dec (headerList lib) trigger))%list
    /\ entries (symbolToLibraryTable (registry w')) trigger
       = (entries (symbolToLibraryTable (registry w)) trigger
          ++ repeat (name lib)
               (count_occ string_dec (symbolList lib) trigger))%list.
Proof.
  intros H trigger. destruct (defineLibrary_returned _ _ _ H) as [_ ->].
  simpl. split; apply entries_triggers.
Qed.

(** The loop from any registry on. *)
Lemma defineLibraries_returned (libs : list Library) :
  forall w w',
    defineAll libs w = (w', Returned) ->
    NoDup (map name libs)
    /\ (forall lib, In lib libs ->
          PyDict.contains (libraryTable (registry w)) (name lib) = false)
    /\ PyDict.keys (libraryTable (registry w'))
       = (PyDict.keys (libraryTable (registry w)) ++ map name libs)%list
    /\ (forall n,
          PyDict.get (libraryTable (registry w')) n
          = match find (fun lib => String.eqb (name lib) n) libs with
            | Some lib => Some lib
            | None => PyDict.get (libraryTable (registry w)) n
            end)
    /\ forall trigger,
         entries (headerToLibraryTable (registry w')) trigger
         = (entries (headerToLibraryTable (registry w)) trigger
            ++ flat_map
                 (fun lib =>
                    repeat (name lib)
                      (count_occ string_dec (headerList lib) trigger))
                 libs)%list
         /\ entries (symbolToLibraryTable (registry w')) trigger
            = (entries (symbolToLibraryTable (registry w)) trigger
               ++ flat_map
                    (fun lib =>
                       repeat (name lib)
                         (count_occ string_dec (symbolList lib) trigger))
                    libs)%list.
Proof.
  induction libs as [|lib libs IH]; intros w w'; simpl.
  - intros [= <-]. repeat split; try constructor; try (now rewrite app_nil_r).
    intros ? [].
  - destruct (define lib w) as [w1 [|code]] eqn:Hdef; [|discriminate].
    intros Hrest.
    destruct (IH _ _ Hrest) as (Hnd & Hfresh & Hkeys & Hget & Htrig).
    destruct (defineLibrary_returned _ _ _ Hdef) as [Hnew Hreg].
    assert (Hfresh1 : forall l, In l libs -> name l <> name lib).
    { intros l Hl Heq. specialize (Hfresh l Hl).
      rewrite Hreg in Hfresh. simpl in Hfresh.
      rewrite contains_set, Heq, String.eqb_refl in Hfresh. discriminate. }
    split; [|split; [|split; [|split]]].
    + constructor; auto. rewrite in_map_iff. intros (l & Heq & Hl).
      exact (Hfresh1 l Hl Heq).
    + intros l [<-|Hl]; auto. specialize (Hfresh l Hl).
      rewrite Hreg in Hfresh. simpl in Hfresh.
      rewrite contains_set in Hfresh. now apply orb_false_elim in Hfresh.
    + rewrite Hkeys, Hreg. simpl. rewrite keys_set_new by exact Hnew.
      now rewrite <- app_assoc.
    + intros n. rewrite Hget, Hreg. simpl.
      destruct (find (fun l => String.eqb (name l) n) libs) as [l|] eqn:Hf.
      * apply find_some in Hf. destruct Hf as [Hl Hn].
        apply String.eqb_eq in Hn.
        destruct (String.eqb_spec (name lib) n) as [Heq|]; auto.
        exfalso. apply (Hfresh1 l Hl). congruence.
      * rewrite get_set. now destruct (String.eqb (name lib) n).
    + intros trigger. destruct (Htrig trigger) as [-> ->].
      rewrite Hreg. simpl. rewrite !entries_triggers.
      now rewrite <- !app_assoc.
Qed.

Lemma find_by_name (libs : list Library) (lib : Library) :
  NoDup (map name libs) -> In lib libs ->
  find (fun l => String.eqb (name l) (name lib)) libs = Some lib.
Proof.
  induction libs as [|l libs IH]; intros Hnd Hin; [destruct Hin|].
  simpl in *. inversion Hnd as [|? ? Hnotin Hnd']; subst.
  destruct Hin as [->|Hin]; [now rewrite String.eqb_refl|].
  destruct (String.eqb_spec (name l) (name lib)) as [Heq|_]; auto.
  exfalso. apply Hnotin. rewrite Heq. now apply in_map.
Qed.

Lemma in_repeat_count (n m : string) (l : list string) (x : string) :
  In n (repeat m (count_occ string_dec l x)) <-> n = m /\ In x l.
Proof.
  split.
  - intros H. pose proof (repeat_spec _ _ _ H) as ->. split; auto.
    apply (count_occ_In string_dec).
    destruct (count_occ string_dec l x); [destruct H | lia].
  - intros [-> H]. apply (count_occ_In string_dec) in H.
    destruct (count_occ string_dec l x); [lia | now left].
Qed.

(** X3. When the registration loop has run from empty tables to its end,
    the list under a header holds the names of the libraries that declare
    the header, in the order of registration (a name once for each time
    the header stands in the library's list): a name is listed under a
    header exactly if the library table binds it to a record with that
    header. The same holds of the symbols. *)
Theorem registry_indices (libs : list Library) (out : list event)
    (w : World) :
  defineAll libs (mkWorld Registry_empty out) = (w, Returned) ->
  forall trigger,
    entries (headerToLibraryTable (registry w)) trigger
    = flat_map
        (fun lib =>
           repeat (name lib) (count_occ string_dec (headerList lib) trigger))
        libs
    /\ entries (symbolToLibraryTable (registry w)) trigger
       = flat_map
           (fun lib =>
              repeat (name lib)
                (count_occ string_dec (symbolList lib) trigger))
           libs
    /\ forall n,
         (In n (entries (headerToLibraryTable (registry w)) trigger) <->
          exists lib,
            PyDict.get (libraryTable (registry w)) n = Some lib
            /\ In trigger (headerList lib))
         /\ (In n (entries (symbolToLibraryTable (registry w)) trigger) <->
             exists lib,
               PyDict.get (libraryTable (registry w)) n = Some lib
               /\ In trigger (symbolList lib)).
Proof.
  intros Hrun trigger.
  destruct (defineLibraries_returned _ _ _ Hrun)
    as (Hnd & _ & _ & Hget & Htrig).
  destruct (Htrig trigger) as [Hh Hs]. simpl in Hh, Hs.
  split; [exact Hh|]. split; [exact Hs|].
  assert (Hbound : forall n lib,
            PyDict.get (libraryTable (registry w)) n = Some lib <->
            In lib libs /\ name lib = n).
  { intros n lib. rewrite Hget. simpl. split.
    - destruct (find _ libs) as [l|] eqn:Hf; [|discriminate].
      intros [= ->]. apply find_some in Hf.
      now rewrite String.eqb_eq in Hf.
    - intros [Hin <-]. now rewrite find_by_name. }
  assert (Hlisted : forall (f : Library -> list string) n,
            In n (flat_map
                    (fun lib =>
                       repeat (name lib)
                         (count_occ string_dec (f lib) trigger)) libs) <->
            exists lib,
              PyDict.get (libraryTable (registry w)) n = Some lib
              /\ In trigger (f lib)).
  { intros f n. rewrite in_flat_map. split.
    - intros (lib & Hin & Hn). apply in_repeat_count in Hn.
      destruct Hn as [-> Ht]. exists lib. split; auto.
      apply Hbound. auto.
    - intros (lib & Hb & Ht). apply Hbound in Hb. destruct Hb as [Hin <-].
      exists lib. split; auto. apply in_repeat_count. auto. }
  intros n. rewrite Hh, Hs. split; apply Hlisted.
Qed.

(** X4. From empty tables the registration loop runs to its end exactly
    if no two libraries of the list share a name; if it does not, the
    process exits with code -1. When it has run, the keys of the library
    table are the names, in the order of the list. *)
Theorem defineLibraries_unique_names (libs : list Library)
    (out : list event) :
  let run := defineAll libs (mkWorld Registry_empty out) in
  (snd run = Returned <-> NoDup (map name libs))
  /\ (snd run = Returned \/ snd run = SysExit (-1))
  /\ (snd run = Returned ->
      PyDict.keys (libraryTable (registry (fst run))) = map name libs).
Proof.
  cbv zeta.
  assert (Hcode : forall ls w,
            snd (defineAll ls w) = Returned
            \/ snd (defineAll ls w) = SysExit (-1)).
  { induction ls as [|l ls IH]; intros w0; simpl; auto.
    destruct (define l w0) as [w1 [|code]] eqn:Hd; auto.
    right. unfold defineLibrary in Hd.
    destruct (PyDict.contains _ _); now inversion Hd. }
  assert (Hruns : forall ls w,
            NoDup (map name ls) ->
            (forall l, In l ls ->
               PyDict.contains (libraryTable (registry w)) (name l) = false) ->
            snd (defineAll ls w) = Returned).
  { induction ls as [|l ls IH]; intros w0 Hnd Hfresh; simpl; auto.
    inversion Hnd as [|? ? Hnotin Hnd']; subst.
    destruct (defineLibrary_new verbosity TRACE l w0
                (Hfresh l (or_introl eq_refl))) as (w1 & Hd & _).
    rewrite Hd. apply IH; auto.
    intros l' Hl'. destruct (defineLibrary_returned _ _ _ Hd) as [_ ->].
    simpl. rewrite contains_set, (Hfresh l' (or_intror Hl')), orb_false_r.
    apply String.eqb_neq. intros Heq. apply Hnotin. rewrite Heq.
    now apply in_map. }
  split; [|split].
  - split.
    + intros Hr.
      destruct (defineAll libs (mkWorld Registry_empty out)) as [w o] eqn:Hrun.
      simpl in Hr. subst o.
      now destruct (defineLibraries_returned _ _ _ Hrun) as (Hnd & _).
    + intros Hnd. apply Hruns; auto.
  - apply Hcode.
  - intros Hr.
    destruct (defineAll libs (mkWorld Registry_empty out)) as [w o] eqn:Hrun.
    simpl in Hr. subst o.
    destruct (defineLibraries_returned _ _ _ Hrun) as (_ & _ & Hk & _).
    exact Hk.
Qed.

End RegistryFacts.

(** ** The rank table and the comparator *)

Lemma orderOf_prefix_last (L : list string) (n : nat) :
  (n <= List.length L)%nat ->
  forall x r,
    PyDict.get
      (fold_left
         (fun order i => PyDict.set order (nth i L "") (Z.of_nat i))
         (seq 0 n) PyDict.empty) x = Some r ->
    forall j, (Z.to_nat r < j < n)%nat -> nth_error L j <> Some x.
Proof.
  induction n as [|n IH]; intros Hn x r; [discriminate|].
  rewrite seq_S, fold_left_app. simpl. rewrite get_set.
  destruct (String.eqb_spec (nth n L "") x) as [Hx|Hx].
  - intros [= <-] j Hj. lia.
  - intros Hr j Hj.
    destruct (Nat.eq_dec j n) as [->|Hjn].
    + intros Hnth. apply Hx. now apply nth_error_nth.
    + apply (IH ltac:(lia) x r Hr). lia.
Qed.

(** X5. The rank table built from the list that [topSort] returns has a
    key for exactly the names of the list; the rank of a name is a
    position at which the list holds it, and the last such position where
    the list repeats the name; and two names never have the same rank. *)
Theorem orderOf_ranks (L : list string) (x : string) :
  (PyDict.get (orderOf L) x <> None <-> In x L)
  /\ (forall r,
        PyDict.get (orderOf L) x = Some r ->
        0 <= r < Z.of_nat (List.length L)
        /\ nth_error L (Z.to_nat r) = Some x
        /\ forall j, (Z.to_nat r < j)%nat -> nth_error L j <> Some x)
  /\ (forall y r,
        PyDict.get (orderOf L) x = Some r ->
        PyDict.get (orderOf L) y = Some r -> x = y).
Proof.
  split; [|split].
  - split; [|apply orderOf_complete].
    destruct (PyDict.get (orderOf L) x) as [r|] eqn:Hr; [|congruence].
    intros _. apply orderOf_sound in Hr. destruct Hr as [_ Hr].
    now apply nth_error_In in Hr.
  - intros r Hr. pose proof (orderOf_sound _ _ _ Hr) as [Hr0 Hnth].
    assert (Hlt : (Z.to_nat r < List.length L)%nat).
    { apply nth_error_Some. congruence. }
    split; [lia|]. split; [exact Hnth|].
    intros j Hj. destruct (Nat.lt_ge_cases j (List.length L)) as [Hjl|Hjl].
    + apply (orderOf_prefix_last L (List.length L) (Nat.le_refl _) x r Hr).
      lia.
    + apply nth_error_None in Hjl. congruence.
  - intros y r Hx Hy. exact (orderOf_injective L x y r Hx Hy).
Qed.

Lemma libSorter_opp (o : PyDict.t Z) (x y : string) :
  _libSorter o y x = - _libSorter o x y.
Proof.
  unfold _libSorter, PyStr.gt.
  destruct (PyDict.get o x), (PyDict.get o y); lia.
Qed.

(** X6. [_libSorter] is a three-way comparison of a total order: swapping
    the arguments flips the sign of the result, whatever the rank table;
    and with a rank table built from a list, the result is zero for equal
    names only, and "less than" is transitive. *)
Theorem libSorter_total_order (L : list string) :
  let cmp := _libSorter (orderOf L) in
  (forall x y, cmp y x = - cmp x y)
  /\ (forall x y, cmp x y = 0 <-> x = y)
  /\ (forall x y z, cmp x y < 0 -> cmp y z < 0 -> cmp x z < 0).
Proof.
  cbv zeta. split; [intros; apply libSorter_opp|]. split.
  - intros x y. split.
    + intros H0.
      apply (lib_lt_total (orderOf L) (orderOf_injective L)).
      * unfold cmp2key. rewrite H0. reflexivity.
      * unfold cmp2key. rewrite libSorter_opp, H0. reflexivity.
    + intros <-. pose proof (libSorter_opp (orderOf L) x x). lia.
  - intros x y z Hxy Hyz.
    apply Z.ltb_lt. apply (lib_lt_trans (orderOf L) x y z).
    + apply Z.ltb_lt. exact Hxy.
    + apply Z.ltb_lt. exact Hyz.
Qed.

Section ResolverFacts.
Variables (Edges Vertices : Type).
Variable pairsToVertexEdgeGraph :
  list (string * string) -> Edges * Vertices.
Variable topSort : Edges -> Vertices -> option (list string).

Local Abbreviation sortLibs :=
  (sortLibraries Edges Vertices pairsToVertexEdgeGraph topSort).

Lemma sortLibs_sorted (libraryTable : PyDict.t Library)
    (liblist out : list string) :
  sortLibs libraryTable liblist = Some out ->
  exists ranks,
    out = list_sort (cmp2key (_libSorter (orderOf ranks))) liblist
    /\ sortLibs libraryTable out
       = Some (list_sort (cmp2key (_libSorter (orderOf ranks))) out)
    /\ StronglySorted (may_precede (cmp2key (_libSorter (orderOf ranks))))
         out.
Proof.
  unfold sortLibraries.
  destruct (_makeLibOrder _ _ _ _ libraryTable) as [order|] eqn:Ho;
    [|discriminate].
  destruct (makeLibOrder_inv _ _ _ _ _ _ Ho) as [ranks ->].
  intros [= <-]. exists ranks. repeat split.
  apply list_sort_sorted; [apply lib_lt_irrefl | apply lib_lt_trans].
Qed.

(** X7. Sorting is idempotent: sorting the list that [sortLibraries] has
    produced gives that list again. *)
Theorem sortLibraries_idempotent (libraryTable : PyDict.t Library)
    (liblist out : list string) :
  sortLibs libraryTable liblist = Some out ->
  sortLibs libraryTable out = Some out.
Proof.
  intros H. destruct (sortLibs_sorted _ _ _ H) as (ranks & _ & -> & Hs).
  f_equal. symmetry.
  apply sorted_perm_unique
    with (lt := cmp2key (_libSorter (orderOf ranks)));
    try apply lib_lt_irrefl; try apply lib_lt_trans;
    try apply lib_lt_total, orderOf_injective; auto.
  - apply list_sort_sorted; [apply lib_lt_irrefl | apply lib_lt_trans].
  - apply list_sort_perm.
Qed.

(** X8. A name that was passed more than once stays as often in the
    sorted list, and its occurrences stand next to each other: between
    two places that hold the same name there is only that name. *)
Theorem sortLibraries_duplicates_adjacent (libraryTable : PyDict.t Library)
    (liblist out : list string) :
  sortLibs libraryTable liblist = Some out ->
  (forall x, count_occ string_dec out x = count_occ string_dec liblist x)
  /\ forall l1 x l2 l3,
       out = (l1 ++ x :: l2 ++ x :: l3)%list -> Forall (eq x) l2.
Proof.
  intros H. destruct (sortLibs_sorted _ _ _ H) as (ranks & Hout & _ & Hs).
  split.
  - intros x. apply Permutation_count_occ. rewrite Hout.
    symmetry. apply list_sort_perm.
  - intros l1 x l2 l3 Heq. apply Forall_forall. intros y Hy.
    apply in_split in Hy. destruct Hy as (m1 & m2 & ->).
    rewrite Heq in Hs.
    apply (lib_lt_total (orderOf ranks) (orderOf_injective ranks)).
    + apply (sorted_split _ (l1 ++ x :: m1) m2 l3 y x).
      rewrite <- !app_assoc in *. exact Hs.
    + apply (sorted_split _ l1 m1 (m2 ++ x :: l3) x y).
      rewrite <- !app_assoc in Hs. exact Hs.
Qed.

End ResolverFacts.

(** ** The order of the versions *)

Lemma fin_ltb_scale (m1 e1 m2 e2 K : Z) :
  K <= e1 -> K <= e2 ->
  PyFloat.fin_ltb m1 e1 m2 e2
  = (m1 * 2 ^ (e1 - K) <? m2 * 2 ^ (e2 - K)).
Proof.
  intros H1 H2. unfold PyFloat.fin_ltb.
  set (k := Z.min e1 e2).
  assert (Hk : K <= k) by (unfold k; lia).
  assert (Hp : 0 < 2 ^ (k - K)) by (apply pow2_pos; lia).
  replace (e1 - K) with ((e1 - k) + (k - K)) by lia.
  replace (e2 - K) with ((e2 - k) + (k - K)) by lia.
  rewrite !Z.pow_add_r by (unfold k; lia).
  destruct (Z.ltb_spec (m1 * 2 ^ (e1 - k)) (m2 * 2 ^ (e2 - k))),
           (Z.ltb_spec (m1 * (2 ^ (e1 - k) * 2 ^ (k - K)))
                       (m2 * (2 ^ (e2 - k) * 2 ^ (k - K))));
    auto; nia.
Qed.

Lemma gtb_irrefl (a : PyFloat.pyfloat) : PyFloat.gtb a a = false.
Proof.
  destruct a as [|[|]|m e]; simpl; auto.
  unfold PyFloat.fin_ltb. apply Z.ltb_irrefl.
Qed.

Lemma gtb_trans (a b c : PyFloat.pyfloat) :
  PyFloat.gtb a b = true -> PyFloat.gtb b c = true ->
  PyFloat.gtb a c = true.
Proof.
  destruct a as [|[|]|m1 e1], b as [|[|]|m2 e2], c as [|[|]|m3 e3];
    simpl; try congruence.
  set (K := Z.min e1 (Z.min e2 e3)).
  rewrite (fin_ltb_scale m2 e2 m1 e1 K), (fin_ltb_scale m3 e3 m2 e2 K),
          (fin_ltb_scale m3 e3 m1 e1 K) by (unfold K; lia).
  rewrite !Z.ltb_lt. lia.
Qed.

(** No file that the second loop has seen has a version above the one it
    holds on to. *)
Lemma considerFiles_max (files : list string) :
  forall seen best,
    (forall g w, In g seen -> parseVersion g = Some w ->
                 PyFloat.gtb w (fst best) = false) ->
    forall g w,
      In g (rev files ++ seen)%list -> parseVersion g = Some w ->
      PyFloat.gtb w (fst (fold_left considerFile files best)) = false.
Proof.
  induction files as [|file files IH]; intros seen best Hbest; simpl; auto.
  intros g w Hg. rewrite <- app_assoc in Hg. simpl in Hg. revert g w Hg.
  apply IH. intros g w Hg Hw. unfold considerFile.
  destruct (parseVersion file) as [version|] eqn:Hv.
  - destruct (PyFloat.gtb version (fst best)) eqn:Hgt; simpl.
    + destruct Hg as [<-|Hg].
      * assert (w = version) by congruence. subst. apply gtb_irrefl.
      * destruct (PyFloat.gtb w version) eqn:Hwv; auto.
        rewrite <- (Hbest g w Hg Hw). symmetry.
        exact (gtb_trans _ _ _ Hwv Hgt).
    + destruct Hg as [<-|Hg]; [|now apply (Hbest g)].
      assert (w = version) by congruence. now subst.
  - destruct Hg as [<-|Hg]; [congruence | now apply (Hbest g)].
Qed.

Lemma findVersioned_max (pathConcat : string -> string -> string)
    (glob : string -> list string) (wildlfile : string)
    (wildlfile2 : option string) (libraryPaths : list string) :
  forall path g w,
    In path libraryPaths ->
    In g (versionedFiles pathConcat glob wildlfile wildlfile2 path) ->
    parseVersion g = Some w ->
    PyFloat.gtb w
      (fst (findVersioned pathConcat glob wildlfile wildlfile2 libraryPaths))
    = false.
Proof.
  unfold findVersioned.
  assert (H : forall paths seen best,
            (forall g w, In g seen -> parseVersion g = Some w ->
                         PyFloat.gtb w (fst best) = false) ->
            forall g w,
              In g (flat_map
                      (versionedFiles pathConcat glob wildlfile wildlfile2)
                      paths ++ seen)%list ->
              parseVersion g = Some w ->
              PyFloat.gtb w
                (fst (fold_left
                        (fun best path =>
                           fold_left considerFile
                             (versionedFiles pathConcat glob wildlfile
                                wildlfile2 path) best)
                        paths best)) = false).
  { induction paths as [|path paths IH]; intros seen best Hbest g w;
      simpl; [now apply Hbest|].
    intros Hg. apply (IH _ _ (considerFiles_max _ seen best Hbest)).
    rewrite !in_app_iff in *. rewrite <- in_rev.
    destruct Hg as [[Hg|Hg]|Hg]; auto. }
  intros path g w Hp Hg.
  apply (H libraryPaths [] (PyFloat.zero, None)); [intros ? ? []|].
  rewrite app_nil_r. apply in_flat_map. now exists path.
Qed.

(** ** What [findLibrary] returns *)

Lemma findExact_skip (pathConcat : string -> string -> string)
    (path_exists : string -> bool) (lfile : string) (lfile2 : option string)
    (skipped rest : list string) :
  (forall path, In path skipped ->
     path_exists (pathConcat path lfile) = false
     /\ forall l2, lfile2 = Some l2 ->
                   path_exists (pathConcat path l2) = false) ->
  findExact pathConcat path_exists lfile lfile2 (skipped ++ rest)
  = findExact pathConcat path_exists lfile lfile2 rest.
Proof.
  induction skipped as [|path paths IH]; intros H; simpl; auto.
  destruct (H path (or_introl eq_refl)) as [-> H2].
  destruct lfile2 as [l2|].
  - rewrite (H2 l2 eq_refl). apply IH. intros p Hp. apply H. now right.
  - apply IH. intros p Hp. apply H. now right.
Qed.

Lemma findExact_some (pathConcat : string -> string -> string)
    (path_exists : string -> bool) (lfile : string) (lfile2 : option string)
    (libraryPaths : list string) (found : string) :
  findExact pathConcat path_exists lfile lfile2 libraryPaths = Some found ->
  exists path,
    In path libraryPaths
    /\ (found = pathConcat path lfile
        \/ exists l2, lfile2 = Some l2 /\ found = pathConcat path l2)
    /\ path_exists found = true.
Proof.
  induction libraryPaths as [|path paths IH]; simpl; [discriminate|].
  destruct (path_exists (pathConcat path lfile)) eqn:H1.
  { intros [= <-]. exists path. auto. }
  assert (Hrest : findExact pathConcat path_exists lfile lfile2 paths
                  = Some found ->
                  exists path0,
                    (path = path0 \/ In path0 paths)
                    /\ (found = pathConcat path0 lfile
                        \/ exists l2,
                             lfile2 = Some l2 /\ found = pathConcat path0 l2)
                    /\ path_exists found = true).
  { intros H. destruct (IH H) as (p & Hp & Hf). exists p. auto. }
  destruct lfile2 as [l2|]; auto.
  destruct (path_exists (pathConcat path l2)) eqn:H2; auto.
  intros [= <-]. exists path. split; auto. split; auto.
  right. now exists l2.
Qed.

Section LocatorResults.
Variable sysname : string.
Variable pathConcat : string -> string -> string.
Variable path_exists : string -> bool.
Variable glob : string -> list string.

Local Abbreviation extensions' := (extensions sysname).
Local Abbreviation findLibrary' :=
  (findLibrary sysname pathConcat path_exists glob).

(** X9. The exact name wins, and the order of the directories comes before
    the order of the extensions: where the directories in front hold the
    name with neither extension, a directory that holds the name with the
    first extension gives that path, and one that holds it with the second
    extension only gives that path, whatever versioned files exist and
    whatever the directories behind hold. *)
Theorem findLibrary_first_exact (_lfile : string) (type : Z)
    (skipped : list string) (path : string) (behind : list string) :
  (forall q e,
     In q skipped ->
     e = fst (extensions' type) \/ Some e = snd (extensions' type) ->
     path_exists (pathConcat q ("lib" ++ _lfile ++ e)) = false) ->
  let lfile := "lib" ++ _lfile ++ fst (extensions' type) in
  let found := findLibrary' _lfile type (skipped ++ path :: behind)%list in
  (path_exists (pathConcat path lfile) = true ->
   found = pathConcat path lfile)
  /\ (path_exists (pathConcat path lfile) = false ->
      forall ext2,
        snd (extensions' type) = Some ext2 ->
        path_exists (pathConcat path ("lib" ++ _lfile ++ ext2)) = true ->
        found = pathConcat path ("lib" ++ _lfile ++ ext2)).
Proof.
  intros Hskip. cbv zeta.
  rewrite findLibrary_unfold. cbv zeta.
  rewrite findExact_skip.
  - simpl. split.
    + now intros ->.
    + intros -> ext2 -> H2. simpl. now rewrite H2.
  - intros q Hq. split; [now apply Hskip; auto|].
    intros l2. destruct (snd (extensions' type)) as [e2|] eqn:He2;
      [|discriminate].
    intros [= <-]. apply Hskip; auto.
Qed.

(** X10. [findLibrary] returns one of three things: the path of the exact
    name, with one of the two extensions, in a search directory in which
    the path exists; or a file that [glob] has listed for the versioned
    pattern in a search directory and whose version is above zero; or the
    plain name. *)
Theorem findLibrary_result (_lfile : string) (type : Z)
    (libraryPaths : list string) :
  let found := findLibrary' _lfile type libraryPaths in
  (exists path e,
     In path libraryPaths
     /\ (e = fst (extensions' type) \/ Some e = snd (extensions' type))
     /\ found = pathConcat path ("lib" ++ _lfile ++ e)
     /\ path_exists found = true)
  \/ (exists path v,
        In path libraryPaths
        /\ In found
             (glob (pathConcat path
                      ("lib" ++ _lfile ++ "-*" ++ fst (extensions' type))))
        /\ parseVersion found = Some v
        /\ PyFloat.gtb v PyFloat.zero = true)
  \/ found = "lib" ++ _lfile ++ fst (extensions' type).
Proof.
  cbv zeta. rewrite findLibrary_unfold. cbv zeta.
  destruct (findExact pathConcat path_exists _ _ libraryPaths)
    as [found|] eqn:Hexact.
  - left. apply findExact_some in Hexact.
    destruct Hexact as (path & Hp & [->|(l2 & Hl2 & ->)] & Hex).
    + exists path, (fst (extensions' type)). auto.
    + destruct (snd (extensions' type)) as [e2|] eqn:He2; [|discriminate].
      injection Hl2 as <-. exists path, e2. auto.
  - right.
    pose proof (findVersioned_selected pathConcat glob
                  ("lib" ++ _lfile ++ "-*" ++ fst (extensions' type))
                  (Some ("lib" ++ _lfile ++ "-*" ++ fst (extensions' type)))
                  libraryPaths) as Hsel.
    destruct Hsel as [->|(v & f & -> & Hin & Hv & Hpos)]; [now right|].
    left. simpl. apply in_flat_map in Hin. destruct Hin as (path & Hp & Hf).
    apply versionedFiles_same_pattern in Hf. now exists path, v.
Qed.

(** X11. Where no directory holds the exact name and some versioned file
    has a version above zero, [findLibrary] returns a versioned file whose
    version none of the versioned files exceeds, in any search
    directory. *)
Theorem findLibrary_highest_version (_lfile : string) (type : Z)
    (libraryPaths : list string) (path file : string)
    (version : PyFloat.pyfloat) :
  (forall q e,
     In q libraryPaths ->
     e = fst (extensions' type) \/ Some e = snd (extensions' type) ->
     path_exists (pathConcat q ("lib" ++ _lfile ++ e)) = false) ->
  let wildlfile := "lib" ++ _lfile ++ "-*" ++ fst (extensions' type) in
  In path libraryPaths ->
  In file (glob (pathConcat path wildlfile)) ->
  parseVersion file = Some version ->
  PyFloat.gtb version PyFloat.zero = true ->
  let found := findLibrary' _lfile type libraryPaths in
  exists best,
    (exists q, In q libraryPaths /\ In found (glob (pathConcat q wildlfile)))
    /\ parseVersion found = Some best
    /\ PyFloat.gtb best PyFloat.zero = true
    /\ forall q g w,
         In q libraryPaths -> In g (glob (pathConcat q wildlfile)) ->
         parseVersion g = Some w -> PyFloat.gtb w best = false.
Proof.
  intros Hexact wildlfile Hp Hf Hv Hpos. cbv zeta.
  rewrite findLibrary_unfold. cbv zeta. fold wildlfile.
  rewrite (no_exact_match _ _ _ _ _ _ Hexact).
  pose proof (findVersioned_max pathConcat glob wildlfile (Some wildlfile)
                libraryPaths) as Hmax.
  pose proof (findVersioned_selected pathConcat glob wildlfile
                (Some wildlfile) libraryPaths) as Hsel.
  destruct Hsel as [Hnone|(v & f & Hsome & Hin & Hfv & Hfpos)].
  - exfalso. rewrite Hnone in Hmax. simpl in Hmax.
    rewrite (Hmax path file version Hp) in Hpos; [discriminate| |exact Hv].
    now apply versionedFiles_same_pattern.
  - rewrite Hsome in *. simpl in *. exists v.
    split; [|split; [exact Hfv|split; [exact Hfpos|]]].
    + apply in_flat_map in Hin. destruct Hin as (q & Hq & Hg).
      apply versionedFiles_same_pattern in Hg. now exists q.
    + intros q g w Hq Hg. apply (Hmax q g w Hq).
      now apply versionedFiles_same_pattern.
Qed.

End LocatorResults.

(** ** The text that is taken for the version *)

Lemma rfind_scan_app (c : ascii) (s t : string) :
  forall i lo hi acc,
    PyStr.rfind_scan (s ++ t) c i lo hi acc
    = PyStr.rfind_scan t c (i + PyStr.len s) lo hi
        (PyStr.rfind_scan s c i lo hi acc).
Proof.
  unfold PyStr.len.
  induction s as [|h s IH]; intros i lo hi acc; simpl String.length.
  - simpl. now rewrite Z.add_0_r.
  - cbn [append PyStr.rfind_scan]. rewrite IH. f_equal. lia.
Qed.

Lemma rfind_scan_absent (c : ascii) (t : string) :
  ~ In c (list_ascii_of_string t) ->
  forall i lo hi acc, PyStr.rfind_scan t c i lo hi acc = acc.
Proof.
  induction t as [|h t IH]; intros Hc i lo hi acc; simpl; auto.
  simpl in Hc. rewrite IH by tauto.
  destruct (Ascii.eqb_spec h c) as [->|_]; [tauto|].
  now rewrite andb_false_r.
Qed.

Lemma substring_app_skip (s t : string) (a n : nat) :
  substring (String.length s + a) n (s ++ t) = substring a n t.
Proof. induction s as [|h s IH]; simpl; auto. Qed.

Lemma substring_app_prefix (s t : string) :
  substring 0 (String.length s) (s ++ t) = s.
Proof.
  induction s as [|h s IH]; simpl.
  - now destruct t.
  - now rewrite IH.
Qed.

Lemma parseVersion_after_dash (front rest : string) :
  ~ In "-"%char (list_ascii_of_string rest) ->
  (2 <= String.length rest)%nat ->
  parseVersion (front ++ "-" ++ rest)
  = PyFloat.float (PyStr.slice rest 0 (-3)).
Proof.
  intros Hrest Hlen. unfold parseVersion.
  assert (Hfile : PyStr.len (front ++ "-" ++ rest)
                  = PyStr.len front + 1 + PyStr.len rest).
  { unfold PyStr.len. rewrite length_append. simpl. lia. }
  assert (Hf0 : 0 <= PyStr.len front) by (unfold PyStr.len; lia).
  assert (Hr : PyStr.len rest = Z.of_nat (String.length rest))
    by reflexivity.
  assert (Hi : PyStr.rfind (front ++ "-" ++ rest) "-" 0 (-2)
               = PyStr.len front).
  { unfold PyStr.rfind. rewrite Hfile.
    assert (Hlo : PyStr.clamp (PyStr.len front + 1 + PyStr.len rest) 0 = 0).
    { unfold PyStr.clamp. change (0 <? 0) with false. cbv iota. lia. }
    assert (Hhi : PyStr.clamp (PyStr.len front + 1 + PyStr.len rest) (-2)
                  = PyStr.len front + PyStr.len rest - 1).
    { unfold PyStr.clamp. change (-2 <? 0) with true. cbv iota. lia. }
    rewrite Hlo, Hhi, rfind_scan_app.
    cbn [append PyStr.rfind_scan]. rewrite rfind_scan_absent by exact Hrest.
    rewrite Ascii.eqb_refl, andb_true_r, Z.add_0_l.
    destruct (Z.leb_spec 0 (PyStr.len front)); [|lia].
    destruct (Z.ltb_spec (PyStr.len front)
                (PyStr.len front + PyStr.len rest - 1));
      [reflexivity | lia]. }
  rewrite Hi. destruct (Z.leb_spec 0 (PyStr.len front)); [|lia].
  f_equal. unfold PyStr.slice. rewrite Hfile.
  assert (Ha : PyStr.clamp (PyStr.len front + 1 + PyStr.len rest)
                 (PyStr.len front + 1) = PyStr.len front + 1).
  { unfold PyStr.clamp. destruct (Z.ltb_spec (PyStr.len front + 1) 0); lia. }
  assert (Hb : PyStr.clamp (PyStr.len front + 1 + PyStr.len rest) (-3)
               = Z.max 0 (PyStr.len front + PyStr.len rest - 2)).
  { unfold PyStr.clamp. change (-3 <? 0) with true. cbv iota. lia. }
  assert (Hc : PyStr.clamp (PyStr.len rest) 0 = 0).
  { unfold PyStr.clamp. change (0 <? 0) with false. cbv iota. lia. }
  assert (Hd : PyStr.clamp (PyStr.len rest) (-3)
               = Z.max 0 (PyStr.len rest - 3)).
  { unfold PyStr.clamp. change (-3 <? 0) with true. cbv iota. lia. }
  rewrite Ha, Hb, Hc, Hd. unfold PyStr.len in *.
  replace (Z.to_nat (Z.of_nat (String.length front) + 1))
    with (String.length front + 1)%nat by lia.
  rewrite substring_app_skip. cbn [append substring].
  simpl (Z.to_nat 0). f_equal. lia.
Qed.

(** X12. For a file name with a [-] after which no further [-] comes and
    at least two characters follow, the version is read off what follows
    that [-], less its last three characters: the text is cut three
    characters before the end whatever the extension is. So for a name
    that ends in [.so] the version is the text between the last [-] and
    the extension, and for a name that ends in [.a] it is that text
    without its last character. *)
Theorem parseVersion_cut (front v : string) :
  ~ In "-"%char (list_ascii_of_string v) ->
  (forall ext,
     ~ In "-"%char (list_ascii_of_string ext) ->
     (2 <= String.length (v ++ ext))%nat ->
     parseVersion (front ++ "-" ++ v ++ ext)
     = PyFloat.float (PyStr.slice (v ++ ext) 0 (-3)))
  /\ parseVersion (front ++ "-" ++ v ++ ".so") = PyFloat.float v
  /\ parseVersion (front ++ "-" ++ v ++ ".a")
     = PyFloat.float (PyStr.slice v 0 (-1)).
Proof.
  intros Hv.
  assert (Hno : forall ext,
            ~ In "-"%char (list_ascii_of_string ext) ->
            ~ In "-"%char (list_ascii_of_string (v ++ ext))).
  { intros ext He. rewrite list_ascii_of_string_app, in_app_iff. tauto. }
  assert (Hclamp0 : forall n, 0 <= n -> PyStr.clamp n 0 = 0).
  { intros n Hn. unfold PyStr.clamp. change (0 <? 0) with false.
    cbv iota. lia. }
  assert (Hclampn : forall n k, 0 < k ->
            PyStr.clamp n (- k) = Z.max 0 (n - k)).
  { intros n k Hk. unfold PyStr.clamp.
    destruct (Z.ltb_spec (- k) 0); lia. }
  split; [|split].
  - intros ext He Hlen. apply parseVersion_after_dash; auto.
  - rewrite parseVersion_after_dash.
    + f_equal. unfold PyStr.slice, PyStr.len.
      rewrite Hclamp0 by lia. rewrite (Hclampn _ 3) by lia.
      rewrite length_append. simpl String.length.
      replace (Z.to_nat (Z.max 0 (Z.of_nat (String.length v + 3) - 3) - 0))
        with (String.length v) by lia.
      apply substring_app_prefix.
    + apply Hno. simpl. intros [H|[H|[H|[]]]]; discriminate H.
    + rewrite length_append. simpl. lia.
  - rewrite parseVersion_after_dash.
    + f_equal. unfold PyStr.slice, PyStr.len.
      rewrite !Hclamp0 by lia.
      rewrite (Hclampn _ 3), (Hclampn _ 1) by lia.
      rewrite length_append. simpl String.length.
      replace (Z.to_nat (Z.max 0 (Z.of_nat (String.length v + 2) - 3) - 0))
        with (String.length v - 1)%nat by lia.
      replace (Z.to_nat (Z.max 0 (Z.of_nat (String.length v) - 1) - 0))
        with (String.length v - 1)%nat by lia.
      assert (Hsub : forall n, (n <= String.length v)%nat ->
                substring 0 n (v ++ ".a") = substring 0 n v).
      { clear. induction v as [|h v IH]; intros n Hn; simpl in *.
        - assert (n = 0)%nat by lia. now subst.
        - destruct n as [|n]; auto. rewrite IH by lia. reflexivity. }
      apply Hsub. lia.
    + apply Hno. simpl. intros [H|[H|[]]]; discriminate H.
    + rewrite length_append. simpl. lia.
Qed.

(** ** Why the registration loop ends early *)

(** X13. The registration loop ends the process only because of a name
    that is registered already: the list then splits into the libraries
    that were registered, one by one, and a first library whose name the
    table holds at that point; the tables are left as those registrations
    made them, the exit code is -1 and the last thing printed is the
    message that names this library. *)
Theorem defineLibraries_first_duplicate (verbosity TRACE : Z)
    (libs : list Library) (w w' : World) (code : Z) :
  defineLibraries verbosity TRACE libs w = (w', SysExit code) ->
  exists registered lib later w1,
    libs = (registered ++ lib :: later)%list
    /\ defineLibraries verbosity TRACE registered w = (w1, Returned)
    /\ PyDict.contains (libraryTable (registry w1)) (name lib) = true
    /\ registry w' = registry w1
    /\ code = -1
    /\ last (stdout w') (Print "")
       = ColorPrint ("ERROR: Library '" ++ name lib ++ "' defined twice.").
Proof.
  revert w. induction libs as [|lib libs IH]; intros w; simpl;
    [discriminate|].
  destruct (defineLibrary verbosity TRACE lib w) as [w1 [|c]] eqn:Hdef.
  - intros Hrest.
    destruct (IH _ Hrest) as (reg & l & later & w2 & -> & Hreg & Hrest').
    exists (lib :: reg), l, later, w2. simpl. rewrite Hdef. auto.
  - intros [= <- <-]. exists [], lib, libs, w. simpl.
    unfold defineLibrary in Hdef.
    destruct (PyDict.contains (libraryTable (registry w)) (name lib)) eqn:Hc;
      [|discriminate].
    injection Hdef as <- <-. simpl. repeat split; auto. apply last_last.
Qed.

(** ** The theorems at concrete inputs *)

Lemma sortLibraries_permutation_invariant_witness :
  Topsort.topSort
    (fst (Topsort.pairsToVertexEdgeGraph (_makeLibOrder_pairs PyDict.empty)))
    (snd (Topsort.pairsToVertexEdgeGraph (_makeLibOrder_pairs PyDict.empty)))
  = Some linkerRanks
  /\ Permutation ["zlib"; "Xext"; "G3D-app"; "dl"]
       ["dl"; "Xext"; "G3D-app"; "zlib"]
  /\ sortLibraries _ _ Topsort.pairsToVertexEdgeGraph Topsort.topSort
       PyDict.empty ["zlib"; "Xext"; "G3D-app"; "dl"]
     = Some ["Xext"; "dl"; "G3D-app"; "zlib"]
  /\ sortLibraries _ _ Topsort.pairsToVertexEdgeGraph Topsort.topSort
       PyDict.empty ["dl"; "Xext"; "G3D-app"; "zlib"]
     = Some ["Xext"; "dl"; "G3D-app"; "zlib"]
  /\ Permutation ["zlib"; "Xext"; "G3D-app"; "dl"]
       ["Xext"; "dl"; "G3D-app"; "zlib"].
Proof.
  assert (Hranks :
            Topsort.topSort
              (fst (Topsort.pairsToVertexEdgeGraph
                      (_makeLibOrder_pairs PyDict.empty)))
              (snd (Topsort.pairsToVertexEdgeGraph
                      (_makeLibOrder_pairs PyDict.empty)))
            = Some linkerRanks) by (vm_compute; reflexivity).
  assert (Hperm : Permutation ["zlib"; "Xext"; "G3D-app"; "dl"]
                    ["dl"; "Xext"; "G3D-app"; "zlib"]).
  { apply perm_trans with (l' := ["Xext"; "G3D-app"; "dl"; "zlib"]).
    - apply (Permutation_cons_append ["Xext"; "G3D-app"; "dl"] "zlib").
    - symmetry.
      apply (Permutation_cons_app ["Xext"; "G3D-app"] ["zlib"] "dl").
      apply Permutation_refl. }
  split; [exact Hranks|]. split; [exact Hperm|].
  destruct (sortLibraries_permutation_invariant _ _
              Topsort.pairsToVertexEdgeGraph Topsort.topSort PyDict.empty
              linkerRanks ["zlib"; "Xext"; "G3D-app"; "dl"]
              ["dl"; "Xext"; "G3D-app"; "zlib"] Hranks Hperm)
    as (out & H1 & H2 & H3).
  assert (Hout : out = ["Xext"; "dl"; "G3D-app"; "zlib"]).
  { vm_compute in H1. now injection H1 as <-. }
  rewrite <- Hout. split; [exact H1|]. split; [exact H2 | exact H3].
Defined.

Lemma sortLibraries_unranked_first_witness :
  _makeLibOrder _ _ Topsort.pairsToVertexEdgeGraph Topsort.topSort
    PyDict.empty = Some linkerOrder
  /\ exists out,
       sortLibraries _ _ Topsort.pairsToVertexEdgeGraph Topsort.topSort
         PyDict.empty ["zlib"; "dl"; "G3D-app"; "Xext"] = Some out
       /\ Permutation ["zlib"; "dl"; "G3D-app"; "Xext"] out
       /\ forall l1 a l2 b l3,
            out = (l1 ++ a :: l2 ++ b :: l3)%list ->
            (PyDict.get linkerOrder b = None ->
             PyDict.get linkerOrder a = None)
            /\ (PyDict.get linkerOrder a = None ->
                PyDict.get linkerOrder b = None -> PyStr.lt b a = false)
            /\ (forall ra rb,
                  PyDict.get linkerOrder a = Some ra ->
                  PyDict.get linkerOrder b = Some rb -> ra <= rb).
Proof.
  split.
  - vm_compute. reflexivity.
  - apply (sortLibraries_unranked_first _ _ Topsort.pairsToVertexEdgeGraph
             Topsort.topSort PyDict.empty linkerOrder).
    vm_compute. reflexivity.
Defined.

Lemma makeLibOrder_linear_extension_witness :
  incl [("G3D-app", "G3D-gfx"); ("G3D-gfx", "G3D-base"); ("G3D-base", "zlib")]
    [("G3D-app", "G3D-gfx"); ("G3D-gfx", "G3D-base"); ("G3D-base", "zlib")]
  /\ Topsort.topSort
       (fst (Topsort.pairsToVertexEdgeGraph
               [("G3D-app", "G3D-gfx"); ("G3D-gfx", "G3D-base");
                ("G3D-base", "zlib")]))
       (snd (Topsort.pairsToVertexEdgeGraph
               [("G3D-app", "G3D-gfx"); ("G3D-gfx", "G3D-base");
                ("G3D-base", "zlib")]))
     = Some ["G3D-app"; "G3D-gfx"; "G3D-base"; "zlib"]
  /\ list_sort
       (cmp2key
          (_libSorter (orderOf ["G3D-app"; "G3D-gfx"; "G3D-base"; "zlib"])))
       ["zlib"; "G3D-base"; "G3D-app"; "G3D-gfx"]
     = ["G3D-app"; "G3D-gfx"; "G3D-base"; "zlib"].
Proof.
  split; [apply incl_refl|]. split; [vm_compute; reflexivity|].
  apply (proj2 (proj2 (proj2
           (makeLibOrder_linear_extension PyDict.empty)))
           [("G3D-app", "G3D-gfx"); ("G3D-gfx", "G3D-base");
            ("G3D-base", "zlib")]).
  - apply incl_refl.
  - vm_compute. reflexivity.
Defined.

Lemma defineLibrary_duplicate_witness :
  defineLibraries 0 1 [zlibLibrary] (mkWorld Registry_empty [])
  = (mkWorld (mkRegistry [("zlib", zlibLibrary)] [("zlib.h", ["zlib"])]
                [("compress2", ["zlib"])]) [],
     Returned)
  /\ PyDict.contains [("zlib", zlibLibrary)] (name zlibAgain) = true
  /\ exists w2,
       defineLibrary 0 1 zlibAgain
         (mkWorld (mkRegistry [("zlib", zlibLibrary)] [("zlib.h", ["zlib"])]
                     [("compress2", ["zlib"])]) [])
       = (w2, SysExit (-1))
       /\ registry w2
          = mkRegistry [("zlib", zlibLibrary)] [("zlib.h", ["zlib"])]
              [("compress2", ["zlib"])]
       /\ last (stdout w2) (Print "")
          = ColorPrint "ERROR: Library 'zlib' defined twice."
       /\ defineLibraries 0 1 [zlibLibrary; zlibAgain; zlibLibrary]
            (mkWorld Registry_empty [])
          = (w2, SysExit (-1)).
Proof.
  split; [vm_compute; reflexivity|]. split; [vm_compute; reflexivity|].
  destruct (defineLibrary_duplicate 0 1 [zlibLibrary] [zlibLibrary] zlibAgain
              (mkWorld Registry_empty [])
              (mkWorld (mkRegistry [("zlib", zlibLibrary)]
                          [("zlib.h", ["zlib"])] [("compress2", ["zlib"])])
                 []))
    as (w2 & H1 & H2 & H3 & H4 & _).
  - vm_compute. reflexivity.
  - vm_compute. reflexivity.
  - exists w2. repeat split; assumption.
Defined.

Lemma Library_init_deploy_witness :
  DYNAMIC <> STATIC
  /\ deploy (Library_init "zlib" DYNAMIC (Some "z") (Some "z") None None
               ["zlib.h"] ["compress2"] [] None) = true
  /\ deploy (Library_init "zlib" STATIC (Some "z") (Some "z") None None
               ["zlib.h"] ["compress2"] [] (Some true)) = false.
Proof.
  assert (Hne : DYNAMIC <> STATIC) by (vm_compute; discriminate).
  pose proof (Library_init_deploy "zlib" DYNAMIC (Some "z") (Some "z") None
                None ["zlib.h"] ["compress2"] [] None) as Hdyn.
  pose proof (Library_init_deploy "zlib" DYNAMIC (Some "z") (Some "z") None
                None ["zlib.h"] ["compress2"] [] (Some true)) as Hsta.
  cbv zeta in Hdyn, Hsta.
  split; [exact Hne|]. split.
  - exact (proj1 (proj2 (proj2 Hdyn)) Hne).
  - exact (proj1 Hsta).
Defined.

Lemma findLibrary_not_found_witness :
  let fs := ["/usr/lib/libfoo-rc.dylib"; "/usr/lib/libfoobar.so"] in
  findLibraryE "Darwin" FileSystem.pathConcat (FileSystem.path_exists fs)
    (FileSystem.glob_or_raise fs) "foo" DYNAMIC ["/usr/lib"; "/opt/lib"]
  = Some ("lib" ++ "foo" ++ ".dylib")
  /\ prefix "/" ("lib" ++ "foo" ++ ".dylib") = false.
Proof.
  cbv zeta.
  apply (findLibrary_not_found "Darwin" FileSystem.pathConcat
           (FileSystem.path_exists
              ["/usr/lib/libfoo-rc.dylib"; "/usr/lib/libfoobar.so"])
           (FileSystem.glob_or_raise
              ["/usr/lib/libfoo-rc.dylib"; "/usr/lib/libfoobar.so"])
           "foo" DYNAMIC ["/usr/lib"; "/opt/lib"]).
  - intros path e [<-|[<-|[]]] [->|He];
      try (vm_compute; reflexivity);
      vm_compute in He; injection He as ->; vm_compute; reflexivity.
  - intros path [<-|[<-|[]]]; vm_compute; discriminate.
  - intros path e file files [<-|[<-|[]]] [->|He];
      try (vm_compute in He; injection He as ->);
      intros Hfiles; vm_compute in Hfiles; injection Hfiles as <-;
      intros H;
      repeat (destruct H as [<-|H]; [vm_compute; reflexivity|]);
      destruct H.
Defined.

Lemma findLibrary_version_above_zero_witness :
  let fs := ["/usr/lib/libfoo-0.0.so"; "/usr/lib/libfoo-nan.so"] in
  let found :=
    findLibrary "Linux" FileSystem.pathConcat (FileSystem.path_exists fs)
      (FileSystem.glob fs) "foo" DYNAMIC ["/usr/lib"] in
  FileSystem.glob fs (FileSystem.pathConcat "/usr/lib" "libfoo-*.so") = fs
  /\ found = "libfoo.so".
Proof.
  cbv zeta. split; [vm_compute; reflexivity|].
  apply (findLibrary_version_above_zero "Linux" FileSystem.pathConcat
           (FileSystem.path_exists
              ["/usr/lib/libfoo-0.0.so"; "/usr/lib/libfoo-nan.so"])
           (FileSystem.glob
              ["/usr/lib/libfoo-0.0.so"; "/usr/lib/libfoo-nan.so"])
           "foo" DYNAMIC ["/usr/lib"]).
  - intros path e [<-|[]] [->|He];
      [vm_compute; reflexivity | vm_compute in He; discriminate He].
  - intros path file v [<-|[]] H. vm_compute in H.
    destruct H as [<-|[<-|[]]]; vm_compute; intros [= <-]; reflexivity.
Defined.

Lemma defineLibrary_lookup_witness :
  exists w',
    defineLibrary 0 1 zlibLibrary (mkWorld Registry_empty []) = (w', Returned)
    /\ PyDict.get (libraryTable (registry w')) "zlib" = Some zlibLibrary
    /\ PyDict.keys (libraryTable (registry w')) = ["zlib"].
Proof.
  eexists. split; [vm_compute; reflexivity|].
  destruct (defineLibrary_lookup 0 1 zlibLibrary (mkWorld Registry_empty [])
              _ eq_refl) as (Hget & _ & Hkeys).
  split; [exact Hget | exact Hkeys].
Defined.

Lemma defineLibrary_triggers_witness :
  let w := fst (defineLibrary 0 1 zlibLibrary (mkWorld Registry_empty [])) in
  let w' := fst (defineLibrary 0 1 zipLibrary w) in
  defineLibrary 0 1 zipLibrary w = (w', Returned)
  /\ entries (headerToLibraryTable (registry w')) "zlib.h" = ["zlib"; "zip"].
Proof.
  cbv zeta.
  assert (Hdef :
            defineLibrary 0 1 zipLibrary
              (fst (defineLibrary 0 1 zlibLibrary (mkWorld Registry_empty [])))
            = (fst (defineLibrary 0 1 zipLibrary
                      (fst (defineLibrary 0 1 zlibLibrary
                              (mkWorld Registry_empty [])))),
               Returned))
    by (vm_compute; reflexivity).
  split; [exact Hdef|].
  destruct (defineLibrary_triggers 0 1 zipLibrary _ _ Hdef "zlib.h")
    as [-> _].
  vm_compute. reflexivity.
Defined.

Lemma registry_indices_witness :
  let w :=
    fst (defineLibraries 0 1 [zlibLibrary; zipLibrary]
           (mkWorld Registry_empty [])) in
  defineLibraries 0 1 [zlibLibrary; zipLibrary] (mkWorld Registry_empty [])
  = (w, Returned)
  /\ entries (headerToLibraryTable (registry w)) "zlib.h" = ["zlib"; "zip"]
  /\ (In "zip" (entries (headerToLibraryTable (registry w)) "zlib.h") <->
      exists lib,
        PyDict.get (libraryTable (registry w)) "zip" = Some lib
        /\ In "zlib.h" (headerList lib)).
Proof.
  cbv zeta.
  assert (Hrun :
            defineLibraries 0 1 [zlibLibrary; zipLibrary]
              (mkWorld Registry_empty [])
            = (fst (defineLibraries 0 1 [zlibLibrary; zipLibrary]
                      (mkWorld Registry_empty [])),
               Returned))
    by (vm_compute; reflexivity).
  split; [exact Hrun|].
  destruct (registry_indices 0 1 [zlibLibrary; zipLibrary] [] _ Hrun
              "zlib.h") as (Hh & _ & Hin).
  split; [|exact (proj1 (Hin "zip"))].
  rewrite Hh. vm_compute. reflexivity.
Defined.

Lemma sortLibraries_idempotent_witness :
  sortLibraries _ _ Topsort.pairsToVertexEdgeGraph Topsort.topSort
    PyDict.empty ["zlib"; "dl"; "G3D-app"; "zlib"]
  = Some ["dl"; "G3D-app"; "zlib"; "zlib"]
  /\ sortLibraries _ _ Topsort.pairsToVertexEdgeGraph Topsort.topSort
       PyDict.empty ["dl"; "G3D-app"; "zlib"; "zlib"]
     = Some ["dl"; "G3D-app"; "zlib"; "zlib"].
Proof.
  split; [vm_compute; reflexivity|].
  apply (sortLibraries_idempotent _ _ Topsort.pairsToVertexEdgeGraph
           Topsort.topSort PyDict.empty ["zlib"; "dl"; "G3D-app"; "zlib"]).
  vm_compute. reflexivity.
Defined.

Lemma sortLibraries_duplicates_adjacent_witness :
  sortLibraries _ _ Topsort.pairsToVertexEdgeGraph Topsort.topSort
    PyDict.empty ["zlib"; "dl"; "G3D-app"; "zlib"]
  = Some ["dl"; "G3D-app"; "zlib"; "zlib"]
  /\ count_occ string_dec ["dl"; "G3D-app"; "zlib"; "zlib"] "zlib"
     = count_occ string_dec ["zlib"; "dl"; "G3D-app"; "zlib"] "zlib".
Proof.
  split; [vm_compute; reflexivity|].
  apply (sortLibraries_duplicates_adjacent _ _ Topsort.pairsToVertexEdgeGraph
           Topsort.topSort PyDict.empty ["zlib"; "dl"; "G3D-app"; "zlib"]).
  vm_compute. reflexivity.
Defined.

Lemma findLibrary_first_exact_witness :
  let fs := ["/opt/lib/libfoo.dylib"; "/usr/lib/libfoo.so";
             "/usr/lib/libfoo-2.3.so"] in
  findLibrary "Darwin" FileSystem.pathConcat (FileSystem.path_exists fs)
    (FileSystem.glob fs) "foo" DYNAMIC ["/lib"; "/usr/lib"; "/opt/lib"]
  = "/usr/lib/libfoo.so".
Proof.
  cbv zeta.
  apply (findLibrary_first_exact "Darwin" FileSystem.pathConcat
           (FileSystem.path_exists
              ["/opt/lib/libfoo.dylib"; "/usr/lib/libfoo.so";
               "/usr/lib/libfoo-2.3.so"])
           (FileSystem.glob
              ["/opt/lib/libfoo.dylib"; "/usr/lib/libfoo.so";
               "/usr/lib/libfoo-2.3.so"])
           "foo" DYNAMIC ["/lib"] "/usr/lib" ["/opt/lib"]).
  - intros q e [<-|[]] [->|He];
      [vm_compute; reflexivity
      | vm_compute in He; injection He as ->; vm_compute; reflexivity].
  - vm_compute. reflexivity.
  - vm_compute. reflexivity.
  - vm_compute. reflexivity.
Defined.

Lemma findLibrary_highest_version_witness :
  let fs := ["/usr/lib/libfoo-1.0.so"; "/opt/lib/libfoo-2.3.so";
             "/opt/lib/libfoo-2.10.so"] in
  let found :=
    findLibrary "Linux" FileSystem.pathConcat (FileSystem.path_exists fs)
      (FileSystem.glob fs) "foo" DYNAMIC ["/usr/lib"; "/opt/lib"] in
  parseVersion "/usr/lib/libfoo-1.0.so" = Some (PyFloat.Fin 4503599627370496 (-52))
  /\ exists best,
       parseVersion found = Some best
       /\ PyFloat.gtb (PyFloat.Fin 4503599627370496 (-52)) best = false.
Proof.
  cbv zeta. split; [vm_compute; reflexivity|].
  destruct (findLibrary_highest_version "Linux" FileSystem.pathConcat
              (FileSystem.path_exists
                 ["/usr/lib/libfoo-1.0.so"; "/opt/lib/libfoo-2.3.so";
                  "/opt/lib/libfoo-2.10.so"])
              (FileSystem.glob
                 ["/usr/lib/libfoo-1.0.so"; "/opt/lib/libfoo-2.3.so";
                  "/opt/lib/libfoo-2.10.so"])
              "foo" DYNAMIC ["/usr/lib"; "/opt/lib"]
              "/usr/lib" "/usr/lib/libfoo-1.0.so"
              (PyFloat.Fin 4503599627370496 (-52)))
    as (best & _ & Hbest & _ & Hmax).
  - intros q e [<-|[<-|[]]] [->|He];
      try (vm_compute; reflexivity); vm_compute in He; discriminate He.
  - simpl. auto.
  - vm_compute. auto.
  - vm_compute. reflexivity.
  - vm_compute. reflexivity.
  - exists best. split; [exact Hbest|].
    apply (Hmax "/usr/lib" "/usr/lib/libfoo-1.0.so").
    + simpl. auto.
    + vm_compute. auto.
    + vm_compute. reflexivity.
Defined.

Lemma parseVersion_cut_witness :
  ~ In "-"%char (list_ascii_of_string "2.35")
  /\ parseVersion ("/usr/lib/libfoo" ++ "-" ++ "2.35" ++ ".so")
     = PyFloat.float "2.35"
  /\ parseVersion ("/usr/lib/libfoo" ++ "-" ++ "2.35" ++ ".a")
     = PyFloat.float (PyStr.slice "2.35" 0 (-1)).
Proof.
  assert (H : ~ In "-"%char (list_ascii_of_string "2.35")).
  { simpl. intros [H|[H|[H|[H|[]]]]]; discriminate H. }
  split; [exact H|].
  exact (proj2 (parseVersion_cut "/usr/lib/libfoo" "2.35" H)).
Defined.

Lemma defineLibraries_first_duplicate_witness :
  exists w',
    defineLibraries 0 1 [zlibLibrary; zipLibrary; zlibAgain; zipLibrary]
      (mkWorld Registry_empty []) = (w', SysExit (-1))
    /\ exists registered lib later w1,
         [zlibLibrary; zipLibrary; zlibAgain; zipLibrary]
         = (registered ++ lib :: later)%list
         /\ defineLibraries 0 1 registered (mkWorld Registry_empty [])
            = (w1, Returned)
         /\ PyDict.contains (libraryTable (registry w1)) (name lib) = true
         /\ registry w' = registry w1
         /\ -1 = -1
         /\ last (stdout w') (Print "")
            = ColorPrint ("ERROR: Library '" ++ name lib
                          ++ "' defined twice.").
Proof.
  eexists. split; [vm_compute; reflexivity|].
  apply (defineLibraries_first_duplicate 0 1
           [zlibLibrary; zipLibrary; zlibAgain; zipLibrary]
           (mkWorld Registry_empty [])).
  vm_compute. reflexivity.
Defined.

Lemma findLibrary_glob_first_extension_witness :
  findLibrary "Darwin" FileSystem.pathConcat
    (FileSystem.path_exists ["/usr/lib/libfoo-2.3.so"])
    (FileSystem.glob ["/usr/lib/libfoo-2.3.so"]) "foo" DYNAMIC ["/usr/lib"]
  = findLibrary "Darwin" FileSystem.pathConcat
      (FileSystem.path_exists ["/usr/lib/libfoo-2.3.so"])
      (FileSystem.glob []) "foo" DYNAMIC ["/usr/lib"].
Proof.
  apply findLibrary_glob_first_extension.
  intros path [<-|[]]. vm_compute. reflexivity.
Defined.

Lemma findLibrary_darwin_dynamic_witness :
  let fs := ["/usr/lib/libfoo-2.3.dylib"; "/usr/lib/libfoo-10.dylib";
             "/usr/lib/libfoo-2.3.so"] in
  findLibrary "Darwin" FileSystem.pathConcat (FileSystem.path_exists fs)
    (FileSystem.glob fs) "foo" DYNAMIC ["/usr/lib"]
  = "lib" ++ "foo" ++ ".dylib".
Proof.
  cbv zeta. apply findLibrary_darwin_dynamic.
  - intros path e [<-|[]] [->| ->]; vm_compute; reflexivity.
  - intros path file [<-|[]] H. vm_compute in H.
    destruct H as [<-|[<-|[]]].
    + now exists "/usr/lib/libfoo-2.3".
    + now exists "/usr/lib/libfoo-10".
Defined.
